(** * FSL first-level analysis GUI: a model of [run.py]

    [run.py] is one Qt window ([MainWindow]) whose button handlers read
    the form, call into pybids, pandas, nipype and nilearn, and write
    lines to a status log.  The handlers are modelled as computations
    in a state-and-exception monad over the window's fields, the
    handler's local variables and the list of library calls made so
    far; the libraries are a [World] of oracles.

    Strings are Python [str] values whose code points are below 256,
    one [ascii] per code point. *)

From Stdlib Require Import String Ascii List Bool Arith ZArith Lia Sorted.
From Stdlib Require Import DecimalString.
Import ListNotations.
Open Scope string_scope.
Open Scope list_scope.

Set Implicit Arguments.

(** ** Exceptions and results *)

(** An exception derived from [Exception]: its class and [str(e)]. *)
Record exn := Exn { exn_class : string; exn_str : string }.

Inductive result (A : Type) : Type :=
| Ok (a : A)
| Raise (e : exn).
Arguments Ok {A} a.
Arguments Raise {A} e.

Definition rbind {A B} (r : result A) (k : A -> result B) : result B :=
  match r with
  | Ok a => k a
  | Raise e => Raise e
  end.

(** A list comprehension whose element expression may raise. *)
Fixpoint mapR {A B} (f : A -> result B) (l : list A) : result (list B) :=
  match l with
  | [] => Ok []
  | x :: l' =>
      rbind (f x) (fun y => rbind (mapR f l') (fun ys => Ok (y :: ys)))
  end.

Declare Scope result_scope.
Delimit Scope result_scope with result.
Notation "x <- r ;; k" := (rbind r (fun x => k))
  (at level 61, r at next level, right associativity) : result_scope.
Notation "' p <- r ;; k" := (rbind r (fun x => let p := x in k))
  (at level 61, p pattern, r at next level, right associativity) : result_scope.

(** ** Python string operations *)

Module Py.

Definition nl : ascii := "010"%char.
Definition NL : string := String nl "".

(** [str.isspace] on one code point below 256. *)
Definition isspace (c : ascii) : bool :=
  let n := nat_of_ascii c in
  ((9 <=? n)%nat && (n <=? 13)%nat) || ((28 <=? n)%nat && (n <=? 32)%nat)
  || (n =? 133)%nat || (n =? 160)%nat.

Fixpoint lstrip (s : string) : string :=
  match s with
  | "" => ""
  | String c s' => if isspace c then lstrip s' else s
  end.

Fixpoint rstrip (s : string) : string :=
  match s with
  | "" => ""
  | String c s' =>
      match rstrip s' with
      | "" => if isspace c then "" else String c ""
      | r => String c r
      end
  end.

(** [s.strip()] *)
Definition strip (s : string) : string := rstrip (lstrip s).

(** [s.split(sep)] for a separator of one character. *)
Fixpoint split (sep : ascii) (s : string) : list string :=
  match s with
  | "" => [""]
  | String c s' =>
      if Ascii.eqb c sep then "" :: split sep s'
      else match split sep s' with
           | w :: ws => String c w :: ws
           | [] => [String c ""]
           end
  end.

(** [s.split(sep, 1)] for a separator of one character. *)
Fixpoint split1 (sep : ascii) (s : string) : list string :=
  match s with
  | "" => [""]
  | String c s' =>
      if Ascii.eqb c sep then [""; s']
      else match split1 sep s' with
           | w :: ws => String c w :: ws
           | [] => [String c ""]
           end
  end.

(** [sep.join(l)] *)
Fixpoint join (sep : string) (l : list string) : string :=
  match l with
  | [] => ""
  | [x] => x
  | x :: rest => x ++ sep ++ join sep rest
  end.

Fixpoint startswith (p s : string) : bool :=
  match p, s with
  | "", _ => true
  | String a p', String b s' => Ascii.eqb a b && startswith p' s'
  | String _ _, "" => false
  end.

(** [needle in hay] *)
Fixpoint contains (needle hay : string) : bool :=
  startswith needle hay ||
  match hay with
  | "" => false
  | String _ hay' => contains needle hay'
  end.

(** [c in s] for one character, as a proposition. *)
Fixpoint has_char (c : ascii) (s : string) : Prop :=
  match s with
  | "" => False
  | String a s' => a = c \/ has_char c s'
  end.

(** [str(i)] for a non-negative [int]. *)
Definition str_of_nat (i : nat) : string :=
  NilEmpty.string_of_uint (Nat.to_uint i).

(** [os.path.basename] on POSIX: what follows the last slash. *)
Definition basename (p : string) : string := last (split "/" p) "".

Definition ValueError (msg : string) : exn := Exn "ValueError" msg.
Definition IndexError (msg : string) : exn := Exn "IndexError" msg.
Definition AttributeError (msg : string) : exn := Exn "AttributeError" msg.

(** Reading a local variable that no assignment has reached yet. *)
Definition UnboundLocalError (v : string) : exn :=
  Exn "UnboundLocalError"
      ("cannot access local variable '" ++ v
       ++ "' where it is not associated with a value").

(** [a, b = l] *)
Definition unpack2 (l : list string) : result (string * string) :=
  match l with
  | [a; b] => Ok (a, b)
  | [] | [_] =>
      Raise (ValueError ("not enough values to unpack (expected 2, got "
                         ++ str_of_nat (length l) ++ ")"))
  | _ => Raise (ValueError "too many values to unpack (expected 2)")
  end.

(** [l[0]] *)
Definition index0 {A} (l : list A) : result A :=
  match l with
  | x :: _ => Ok x
  | [] => Raise (IndexError "list index out of range")
  end.

(** A [dict] with [str] keys, in insertion order. *)
Definition dict (V : Type) := list (string * V).

(** [d[k] = v]: a key already present keeps its place. *)
Fixpoint dict_set {V} (d : dict V) (k : string) (v : V) : dict V :=
  match d with
  | [] => [(k, v)]
  | (k', v') :: d' =>
      if String.eqb k' k then (k', v) :: d'
      else (k', v') :: dict_set d' k v
  end.

Definition keys {V} (d : dict V) : list string := map fst d.
Definition values {V} (d : dict V) : list V := map snd d.

End Py.

(** ** Numbers

    Python floats and the scalars pandas hands out are kept abstract:
    [py_float] is [float(s)], which raises [ValueError] on text that is
    no number. *)
Class Numbers := {
  num : Type;
  py_float : string -> result num;
  num_of_Z : Z -> num;
  num_sub : num -> num -> num;
  num_isnan : num -> bool
}.

(** ** Contrasts *)

Section Contrasts.
Context {N : Numbers}.

(** One element of the list [parse_contrasts] returns:
    [[name, "T", conditions, weights]]. *)
Record contrast := Contrast {
  c_name : string;
  c_type : string;
  c_conditions : list string;
  c_weights : list num
}.

Local Open Scope result_scope.

(** The inner loop, [for pair in spec.split(",")]. *)
Fixpoint parse_pairs (pairs : list string) (weights : Py.dict num)
  : result (Py.dict num) :=
  match pairs with
  | [] => Ok weights
  | pair_ :: rest =>
      '(task, weight) <- Py.unpack2 (Py.split "=" pair_) ;;
      w <- py_float (Py.strip weight) ;;
      parse_pairs rest (Py.dict_set weights (Py.strip task) w)
  end.

(** The body of the outer loop for one line that is not blank. *)
Definition parse_line (line : string) : result contrast :=
  '(name, spec) <- Py.unpack2 (Py.split1 ":" line) ;;
  weights <- parse_pairs (Py.split "," spec) [] ;;
  Ok (Contrast (Py.strip name) "T" (Py.keys weights) (Py.values weights)).

(** The outer loop, [for line in text.split("\n")]. *)
Fixpoint parse_lines (lines : list string) (contrasts : list contrast)
  : result (list contrast) :=
  match lines with
  | [] => Ok contrasts
  | line :: rest =>
      if String.eqb (Py.strip line) "" then parse_lines rest contrasts
      else c <- parse_line line ;;
           parse_lines rest (contrasts ++ [c])
  end.

(** [parse_contrasts], on the text of [txt_contrasts]. *)
Definition parse_contrasts (text : string) : result (list contrast) :=
  parse_lines (Py.split Py.nl text) [].

End Contrasts.

(** ** Tables read by [pd.read_csv]

    A [DataFrame] is its columns in header order; a cell of a column is
    a number (NaN among them) or a string. *)

Section Frames.
Context {N : Numbers}.

Inductive cell : Type :=
| CNum (x : num)
| CStr (s : string).

Definition column := list cell.
Definition frame := list (string * column).

Definition KeyError (key : string) : exn :=
  Exn "KeyError" ("'" ++ key ++ "'").
Definition TypeError (msg : string) : exn := Exn "TypeError" msg.

(** [df.columns] *)
Definition columns (df : frame) : list string := map fst df.

Definition get_column (df : frame) (name : string) : option column :=
  option_map snd (find (fun p => String.eqb (fst p) name) df).

(** [df.name] *)
Definition attr (df : frame) (name : string) : result column :=
  match get_column df name with
  | Some c => Ok c
  | None => Raise (Py.AttributeError
                     ("'DataFrame' object has no attribute '" ++ name ++ "'"))
  end.

(** [df[name]] *)
Definition getitem (df : frame) (name : string) : result column :=
  match get_column df name with
  | Some c => Ok c
  | None => Raise (KeyError name)
  end.

(** [col == t] for a string [t]: a number equals no string. *)
Definition eq_str (col : column) (t : string) : list bool :=
  map (fun x => match x with
                | CStr s => String.eqb s t
                | CNum _ => false
                end) col.

(** Keeping the positions a boolean mask marks. *)
Fixpoint select {A} (mask : list bool) (l : list A) : list A :=
  match mask, l with
  | b :: mask', x :: l' => if b then x :: select mask' l' else select mask' l'
  | _, _ => []
  end.

(** [df[mask]] *)
Definition filter_rows (df : frame) (mask : list bool) : frame :=
  map (fun p => (fst p, select mask (snd p))) df.

(** [col - k]: a string cell has no subtraction. *)
Fixpoint sub_scalar (col : column) (k : Z) : result (list num) :=
  match col with
  | [] => Ok []
  | CNum x :: col' =>
      rbind (sub_scalar col' k) (fun r => Ok (num_sub x (num_of_Z k) :: r))
  | CStr _ :: _ =>
      Raise (TypeError "unsupported operand type(s) for -: 'str' and 'int'")
  end.

(** [col.fillna(k)] *)
Definition fillna (col : column) (k : Z) : column :=
  map (fun x => match x with
                | CNum v => if num_isnan v then CNum (num_of_Z k) else x
                | CStr _ => x
                end) col.

(** [Bunch(conditions=..., onsets=..., durations=..., regressors=...,
    regressor_names=...)] *)
Record Bunch := {
  conditions : list string;
  onsets : list (list num);
  durations : list column;
  regressors : list column;
  regressor_names : list string
}.

(** The workflow object and the inputs of its [inputSource] node. *)
Record workflow := {
  wf_name : string;
  wf_base_dir : option string;
  wf_in_func : option string;
  wf_brain_mask : option string;
  wf_subject_info : option (list Bunch);
  wf_contrasts : option (list contrast)
}.

End Frames.

(** ** The window *)

(** The fields of [MainWindow] that the handlers read or write.  The
    status box is its plain text; the combo box is its items and the
    index of the current one. *)
Record gui (Layout : Type) := {
  bids_dir : string;
  output_dir : string;
  layout : option Layout;
  lbl_bids : string;
  lbl_output : string;
  txt_tasks : string;
  txt_session : string;
  txt_contrasts : string;
  combo_items : list string;
  combo_index : option nat;
  combo_enabled : bool;
  status : string
}.

(** A query of [BIDSLayout.get]. *)
Record query := {
  q_suffix : string;
  q_task : option string;
  q_session : option string;
  q_extension : list string
}.

(** ** Library calls *)

Section Handlers.
Context {N : Numbers}.
Variables Layout Image : Type.

Inductive event : Type :=
| EvDirDialog (title : string)
| EvWarning (title text : string)
| EvBIDSLayout (root : string)
| EvGet (q : query)
| EvReadCsv (path : string)
| EvWorkflow (name : string)
| EvSetInput (field : string)
| EvRun (wf : workflow)
| EvGzipOpen (path : string)
| EvPickleLoad (path : string)
| EvSmooth (img : Image)
| EvPlot (img : Image)
| EvSaveFig (path : string)
| EvClose.

(** What the libraries answer.  Every oracle sees the calls made before
    it in the same handler. *)
Record World := {
  (** whether the call raises, and what *)
  raises : list event -> event -> option exn;
  (** the folder picked in the dialog, [""] when it is cancelled *)
  picked : list event -> string -> string;
  (** [BIDSLayout(root)] *)
  layout_of : list event -> string -> Layout;
  (** the paths of the files [layout.get(...)] finds *)
  files_of : list event -> Layout -> query -> list string;
  (** [pd.read_csv(path, sep="\t")] *)
  frame_of : list event -> string -> frame;
  (** [outputs.zstats] of the pickled result *)
  zstats_of : list event -> string -> list (list Image);
  (** [nilearn.image.smooth_img(img, 8)] *)
  smoothed : list event -> Image -> Image
}.

Variable W : World.

(** ** The handler monad *)

Record state := {
  win : gui Layout;
  vars : Py.dict string;
  calls : list event
}.

Definition M (A : Type) := state -> state * result A.

Definition ret {A} (a : A) : M A := fun s => (s, Ok a).

Definition bind {A B} (m : M A) (k : A -> M B) : M B :=
  fun s => match m s with
           | (s', Ok a) => k a s'
           | (s', Raise e) => (s', Raise e)
           end.

Definition throw {A} (e : exn) : M A := fun s => (s, Raise e).

(** [try: body / except Exception as e: handler] *)
Definition try_except {A} (body : M A) (handler : exn -> M A) : M A :=
  fun s => match body s with
           | (s', Ok a) => (s', Ok a)
           | (s', Raise e) => handler e s'
           end.

Definition lift {A} (r : result A) : M A := fun s => (s, r).

Definition get_win : M (gui Layout) := fun s => (s, Ok (win s)).

Definition set_win (f : gui Layout -> gui Layout) : M unit :=
  fun s => ({| win := f (win s); vars := vars s; calls := calls s |}, Ok tt).

(** [name = value] for a local variable *)
Definition assign (name value : string) : M unit :=
  fun s => ({| win := win s; vars := Py.dict_set (vars s) name value;
               calls := calls s |}, Ok tt).

Fixpoint lookup (d : Py.dict string) (name : string) : option string :=
  match d with
  | [] => None
  | (k, v) :: d' => if String.eqb k name then Some v else lookup d' name
  end.

(** Reading a local variable *)
Definition local (name : string) : M string :=
  fun s => match lookup (vars s) name with
           | Some v => (s, Ok v)
           | None => (s, Raise (Py.UnboundLocalError name))
           end.

(** A library call: recorded, then answered by the world. *)
Definition call {A} (ev : event) (answer : list event -> A) : M A :=
  fun s =>
    let s' := {| win := win s; vars := vars s; calls := calls s ++ [ev] |} in
    match raises W (calls s) ev with
    | Some e => (s', Raise e)
    | None => (s', Ok (answer (calls s)))
    end.

(** A call into Qt: recorded, and it returns. *)
Definition show {A} (ev : event) (answer : list event -> A) : M A :=
  fun s => ({| win := win s; vars := vars s; calls := calls s ++ [ev] |},
            Ok (answer (calls s))).

Notation "x <- m ;; k" := (bind m (fun x => k))
  (at level 61, m at next level, right associativity).
Notation "m ;;; k" := (bind m (fun _ => k))
  (at level 61, right associativity).

(** ** Widgets *)

(** [QTextEdit.append]: a new paragraph at the end of the text. *)
Definition qappend (text message : string) : string :=
  if String.eqb text "" then message else text ++ Py.NL ++ message.

Definition with_status (g : gui Layout) (v : string) : gui Layout :=
  {| bids_dir := bids_dir g; output_dir := output_dir g; layout := layout g;
     lbl_bids := lbl_bids g; lbl_output := lbl_output g;
     txt_tasks := txt_tasks g; txt_session := txt_session g;
     txt_contrasts := txt_contrasts g; combo_items := combo_items g;
     combo_index := combo_index g; combo_enabled := combo_enabled g;
     status := v |}.

Definition with_bids (g : gui Layout) (dir label : string) : gui Layout :=
  {| bids_dir := dir; output_dir := output_dir g; layout := layout g;
     lbl_bids := label; lbl_output := lbl_output g;
     txt_tasks := txt_tasks g; txt_session := txt_session g;
     txt_contrasts := txt_contrasts g; combo_items := combo_items g;
     combo_index := combo_index g; combo_enabled := combo_enabled g;
     status := status g |}.

Definition with_output (g : gui Layout) (dir label : string) : gui Layout :=
  {| bids_dir := bids_dir g; output_dir := dir; layout := layout g;
     lbl_bids := lbl_bids g; lbl_output := label;
     txt_tasks := txt_tasks g; txt_session := txt_session g;
     txt_contrasts := txt_contrasts g; combo_items := combo_items g;
     combo_index := combo_index g; combo_enabled := combo_enabled g;
     status := status g |}.

Definition with_layout (g : gui Layout) (l : Layout) : gui Layout :=
  {| bids_dir := bids_dir g; output_dir := output_dir g; layout := Some l;
     lbl_bids := lbl_bids g; lbl_output := lbl_output g;
     txt_tasks := txt_tasks g; txt_session := txt_session g;
     txt_contrasts := txt_contrasts g; combo_items := combo_items g;
     combo_index := combo_index g; combo_enabled := combo_enabled g;
     status := status g |}.

Definition with_combo (g : gui Layout) (items : list string)
  (index : option nat) (enabled : bool) : gui Layout :=
  {| bids_dir := bids_dir g; output_dir := output_dir g; layout := layout g;
     lbl_bids := lbl_bids g; lbl_output := lbl_output g;
     txt_tasks := txt_tasks g; txt_session := txt_session g;
     txt_contrasts := txt_contrasts g; combo_items := items;
     combo_index := index; combo_enabled := enabled;
     status := status g |}.

(** [combo.clear()] *)
Definition combo_clear (g : gui Layout) : gui Layout :=
  with_combo g [] None (combo_enabled g).

(** [combo.addItems(texts)]: the first item put into an empty box
    becomes the current one. *)
Definition combo_addItems (g : gui Layout) (texts : list string) : gui Layout :=
  with_combo g (combo_items g ++ texts)
    (match combo_index g, combo_items g ++ texts with
     | None, _ :: _ => Some 0
     | i, _ => i
     end)
    (combo_enabled g).

(** [combo.setEnabled(b)] *)
Definition combo_setEnabled (g : gui Layout) (b : bool) : gui Layout :=
  with_combo g (combo_items g) (combo_index g) b.

(** [combo.count()] *)
Definition count (g : gui Layout) : nat := length (combo_items g).

(** [combo.itemText(i)] *)
Definition itemText (g : gui Layout) (i : nat) : string :=
  nth i (combo_items g) "".

(** [combo.currentText()] *)
Definition currentText (g : gui Layout) : string :=
  match combo_index g with
  | Some i => itemText g i
  | None => ""
  end.

(** ** The handlers *)

(** [self.log(message)] *)
Definition log (message : string) : M unit :=
  set_win (fun g => with_status g (qappend (status g) message)).

(** [self.layout.get(...)] *)
Definition layout_get (q : query) : M (list string) :=
  g <- get_win ;;
  match layout g with
  | None =>
      throw (Py.AttributeError "'NoneType' object has no attribute 'get'")
  | Some l => call (EvGet q) (fun h => files_of W h l q)
  end.

Definition choose_bids : M unit :=
  folder <- show (EvDirDialog "Choose BIDS Folder")
                 (fun h => picked W h "Choose BIDS Folder") ;;
  if String.eqb folder "" then ret tt
  else
    set_win (fun g => with_bids g folder (Py.basename folder)) ;;;
    try_except
      (log "Step 1: Loading BIDS layout..." ;;;
       g <- get_win ;;
       l <- call (EvBIDSLayout (bids_dir g))
                 (fun h => layout_of W h (bids_dir g)) ;;
       set_win (fun g => with_layout g l) ;;;
       found <- layout_get {| q_suffix := "confounds"; q_task := None;
                              q_session := None;
                              q_extension := [".tsv"; ".csv"] |} ;;
       confounds_file <- lift (Py.index0 found) ;;
       assign "confounds_file" confounds_file ;;;
       confounds <- call (EvReadCsv confounds_file)
                         (fun h => frame_of W h confounds_file) ;;
       set_win combo_clear ;;;
       set_win (fun g => combo_addItems g (columns confounds)) ;;;
       set_win (fun g => combo_setEnabled g true) ;;;
       log "BIDS layout loaded successfully.")
      (fun e =>
         confounds_file <- local "confounds_file" ;;
         log ("Error in Step 1 (Load BIDS): " ++ exn_str e
              ++ " - File: " ++ confounds_file)).

Definition choose_output : M unit :=
  folder <- show (EvDirDialog "Choose Output Folder")
                 (fun h => picked W h "Choose Output Folder") ;;
  if String.eqb folder "" then ret tt
  else set_win (fun g => with_output g folder (Py.basename folder)).

(** [create_feat_first_level_wf(name="Feat1stLevel")]; [None] is the
    call that leaves the name out. *)
Definition create_feat_first_level_wf (name : option string) : M workflow :=
  let name := match name with Some n => n | None => "Feat1stLevel" end in
  call (EvWorkflow name)
       (fun _ => {| wf_name := name; wf_base_dir := None;
                    wf_in_func := None; wf_brain_mask := None;
                    wf_subject_info := None; wf_contrasts := None |}).

(** The items of the combo box that [run_first_level] keeps. *)
Definition confound_cols (g : gui Layout) : list string :=
  map (itemText g)
      (filter (fun i => Py.contains (itemText g i) (currentText g))
              (seq 0 (count g))).

(** [list(events[events.trial_type == t].onset - 10)] *)
Definition onsets_for (events : frame) (t : string) : result (list num) :=
  (trial_type <- attr events "trial_type" ;;
   onset <- attr (filter_rows events (eq_str trial_type t)) "onset" ;;
   sub_scalar onset 10)%result.

(** [list(events[events.trial_type == t].duration)] *)
Definition durations_for (events : frame) (t : string) : result column :=
  (trial_type <- attr events "trial_type" ;;
   attr (filter_rows events (eq_str trial_type t)) "duration")%result.

(** [list(confounds[c].fillna(0)[4:])] *)
Definition regressor_for (confounds : frame) (c : string) : result column :=
  (col <- getitem confounds c ;;
   Ok (skipn 4 (fillna col 0)))%result.

Definition set_base_dir (wf : workflow) (v : string) : workflow :=
  {| wf_name := wf_name wf; wf_base_dir := Some v;
     wf_in_func := wf_in_func wf; wf_brain_mask := wf_brain_mask wf;
     wf_subject_info := wf_subject_info wf; wf_contrasts := wf_contrasts wf |}.

Definition set_in_func (wf : workflow) (v : string) : workflow :=
  {| wf_name := wf_name wf; wf_base_dir := wf_base_dir wf;
     wf_in_func := Some v; wf_brain_mask := wf_brain_mask wf;
     wf_subject_info := wf_subject_info wf; wf_contrasts := wf_contrasts wf |}.

Definition set_brain_mask (wf : workflow) (v : string) : workflow :=
  {| wf_name := wf_name wf; wf_base_dir := wf_base_dir wf;
     wf_in_func := wf_in_func wf; wf_brain_mask := Some v;
     wf_subject_info := wf_subject_info wf; wf_contrasts := wf_contrasts wf |}.

Definition set_subject_info (wf : workflow) (v : list Bunch) : workflow :=
  {| wf_name := wf_name wf; wf_base_dir := wf_base_dir wf;
     wf_in_func := wf_in_func wf; wf_brain_mask := wf_brain_mask wf;
     wf_subject_info := Some v; wf_contrasts := wf_contrasts wf |}.

Definition set_contrasts (wf : workflow) (v : list contrast) : workflow :=
  {| wf_name := wf_name wf; wf_base_dir := wf_base_dir wf;
     wf_in_func := wf_in_func wf; wf_brain_mask := wf_brain_mask wf;
     wf_subject_info := wf_subject_info wf; wf_contrasts := Some v |}.

(** The tasks typed into [txt_tasks]. *)
Definition tasks_of (g : gui Layout) : list string :=
  map Py.strip (Py.split "," (txt_tasks g)).

(** [Bunch(...)] as [run_first_level] fills it. *)
Definition make_info (tasks cols : list string) (events confounds : frame)
  : result Bunch :=
  (ons <- mapR (onsets_for events) tasks ;;
   durs <- mapR (durations_for events) tasks ;;
   regs <- mapR (regressor_for confounds) cols ;;
   Ok {| conditions := tasks; onsets := ons; durations := durs;
         regressors := regs; regressor_names := cols |})%result.

(** The path the results are read from. *)
Definition result_path (out : string) : string :=
  out ++ "/Feat1stLevel/modelestimate/result_modelestimate.pklz".

(** The path of the picture with index [i]. *)
Definition zstat_path (out : string) (i : nat) : string :=
  out ++ "/zstat_" ++ Py.str_of_nat i ++ ".png".

(** The [for i, t_map in enumerate(...)] loop, from index [i] on. *)
Fixpoint save_zstats (out : string) (imgs : list Image) (i : nat) : M unit :=
  match imgs with
  | [] => ret tt
  | t_map :: rest =>
      sm <- call (EvSmooth t_map) (fun h => smoothed W h t_map) ;;
      call (EvPlot sm) (fun _ => tt) ;;;
      call (EvSaveFig (zstat_path out i)) (fun _ => tt) ;;;
      call EvClose (fun _ => tt) ;;;
      save_zstats out rest (S i)
  end.

(** The [try] block of [run_first_level] up to the workflow's inputs. *)
Definition first_level_setup : M workflow :=
  g <- get_win ;;
  let tasks := tasks_of g in
  let session := Py.strip (txt_session g) in
  contrasts <- lift (parse_contrasts (txt_contrasts g)) ;;
  let confound_cols := confound_cols g in
  task0 <- lift (Py.index0 tasks) ;;
  found <- layout_get {| q_suffix := "bold"; q_task := Some task0;
                         q_session := Some session;
                         q_extension := ["nii.gz"] |} ;;
  bold_file <- lift (Py.index0 found) ;;
  assign "bold_file" bold_file ;;;
  task0 <- lift (Py.index0 tasks) ;;
  found <- layout_get {| q_suffix := "brainmask"; q_task := Some task0;
                         q_session := Some session;
                         q_extension := ["nii.gz"] |} ;;
  mask_file <- lift (Py.index0 found) ;;
  assign "mask_file" mask_file ;;;
  task0 <- lift (Py.index0 tasks) ;;
  found <- layout_get {| q_suffix := "events"; q_task := Some task0;
                         q_session := Some session;
                         q_extension := ["tsv"] |} ;;
  events_file <- lift (Py.index0 found) ;;
  assign "events_file" events_file ;;;
  found <- layout_get {| q_suffix := "confounds"; q_task := None;
                         q_session := None; q_extension := ["tsv"] |} ;;
  confounds_file <- lift (Py.index0 found) ;;
  assign "confounds_file" confounds_file ;;;
  events <- call (EvReadCsv events_file) (fun h => frame_of W h events_file) ;;
  confounds <- call (EvReadCsv confounds_file)
                    (fun h => frame_of W h confounds_file) ;;
  info <- lift (make_info tasks confound_cols events confounds) ;;
  feat_wf <- create_feat_first_level_wf None ;;
  let feat_wf := set_base_dir feat_wf (output_dir g) in
  call (EvSetInput "in_func") (fun _ => tt) ;;;
  let feat_wf := set_in_func feat_wf bold_file in
  call (EvSetInput "brain_mask") (fun _ => tt) ;;;
  let feat_wf := set_brain_mask feat_wf mask_file in
  call (EvSetInput "subject_info") (fun _ => tt) ;;;
  let feat_wf := set_subject_info feat_wf [info] in
  call (EvSetInput "contrasts") (fun _ => tt) ;;;
  let feat_wf := set_contrasts feat_wf contrasts in
  ret feat_wf.

(** The rest of the [try] block: the run, the results, the pictures. *)
Definition first_level_run (feat_wf : workflow) : M unit :=
  log "Step 3: Running first-level analysis..." ;;;
  call (EvRun feat_wf) (fun _ => tt) ;;;
  log "Step 4: Saving results..." ;;;
  g <- get_win ;;
  call (EvGzipOpen (result_path (output_dir g))) (fun _ => tt) ;;;
  zstats <- call (EvPickleLoad (result_path (output_dir g)))
                 (fun h => zstats_of W h (result_path (output_dir g))) ;;
  zstats0 <- lift (Py.index0 zstats) ;;
  save_zstats (output_dir g) zstats0 0 ;;;
  log "First-level analysis completed!".

(** The [try] block of [run_first_level]. *)
Definition first_level_try : M unit :=
  feat_wf <- first_level_setup ;;
  first_level_run feat_wf.

(** The [except Exception as e] block of [run_first_level]. *)
Definition first_level_except (e : exn) : M unit :=
  g <- get_win ;;
  sf <- (if Py.contains "Step 2" (status g) then
           file <- (if Py.contains "bold" (exn_str e) then local "bold_file"
                    else if Py.contains "events" (exn_str e)
                         then local "events_file"
                         else local "confounds_file") ;;
           ret ("Setup Workflow", file)
         else if Py.contains "Step 3" (status g) then
           ret ("Run Analysis", (output_dir g ++ "/Feat1stLevel")%string)
         else if Py.contains "Step 4" (status g) then
           ret ("Save Results", (output_dir g ++ "/zstat_*.png")%string)
         else ret ("Unknown", "Unknown")) ;;
  log ("Error in " ++ fst sf ++ ": " ++ exn_str e ++ " - File: " ++ snd sf).

Definition run_first_level : M unit :=
  g <- get_win ;;
  if String.eqb (bids_dir g) "" || String.eqb (output_dir g) "" then
    show (EvWarning "Error" "Select BIDS and output folders!") (fun _ => tt)
  else
    log "Step 2: Setting up first-level analysis..." ;;;
    try_except first_level_try first_level_except.

Definition run_second_level : M unit :=
  log "Second-level analysis not implemented yet.".

(** The window as [__init__] builds it. *)
Definition init_window : gui Layout :=
  {| bids_dir := ""; output_dir := ""; layout := None;
     lbl_bids := "No folder selected"; lbl_output := "No folder selected";
     txt_tasks := "Finger, Foot, Lips"; txt_session := "test";
     txt_contrasts :=
       "Finger vs. Rest: Finger=1" ++ Py.NL
       ++ "All Motor: Finger=1, Foot=1, Lips=1";
     combo_items := []; combo_index := None; combo_enabled := false;
     status := "Ready" |}.

(** The state a handler starts in. *)
Definition enter (g : gui Layout) : state :=
  {| win := g; vars := []; calls := [] |}.

(** What one click leaves behind: the window, the library calls made,
    and whether an exception left the handler. *)
Definition click (handler : M unit) (g : gui Layout)
  : gui Layout * list event * result unit :=
  let '(s, r) := handler (enter g) in
  (win s, calls s, r).

End Handlers.

Arguments EvDirDialog {N Image} title.
Arguments EvWarning {N Image} title text.
Arguments EvBIDSLayout {N Image} root.
Arguments EvGet {N Image} q.
Arguments EvReadCsv {N Image} path.
Arguments EvWorkflow {N Image} name.
Arguments EvSetInput {N Image} field.
Arguments EvRun {N Image} wf.
Arguments EvGzipOpen {N Image} path.
Arguments EvPickleLoad {N Image} path.
Arguments EvSmooth {N Image} img.
Arguments EvPlot {N Image} img.
Arguments EvSaveFig {N Image} path.
Arguments EvClose {N Image}.
Arguments enter {N Layout Image} g.
Arguments run_second_level {N Layout Image}.
Arguments get_win {N Layout Image}.
Arguments ret {N Layout Image A} a.
Arguments throw {N Layout Image A} e.
Arguments lift {N Layout Image A} r.
Arguments local {N Layout Image} name.
Arguments assign {N Layout Image} name value.
Arguments log {N Layout Image} message.
Arguments set_win {N Layout Image} f.
Arguments bind {N Layout Image A B} m k.
Arguments try_except {N Layout Image A} body handler.
Arguments first_level_except {N Layout Image} e.

(** ** The specification's wording, for comparison *)

Section Wording.
Context {N : Numbers}.

(** [needle] occurs somewhere in [hay]. *)
Definition occurs (needle hay : string) : Prop :=
  exists before after, hay = (before ++ needle ++ after)%string.

(** The line [<name>:<c1>=<w1>,<c2>=<w2>,...]; the blanks the user types
    after the colon and the commas belong to the conditions. *)
Definition pair_text (p : string * string) : string :=
  (fst p ++ "=" ++ snd p)%string.

Definition contrast_line (name : string) (pairs : list (string * string))
  : string :=
  (name ++ ":" ++ Py.join "," (map pair_text pairs))%string.

(** The record the specification promises for such a line. *)
Definition spec_contrast (name : string) (pairs : list (string * string))
  (weights : list num) : contrast :=
  Contrast (Py.strip name) "T" (map (fun p => Py.strip (fst p)) pairs) weights.

(** A text that holds none of the delimiters of the parser. *)
Definition plain (s : string) : Prop :=
  ~ Py.has_char "," s /\ ~ Py.has_char "=" s /\ ~ Py.has_char Py.nl s.

(** A contrast line the parser cannot read: no colon, a pair without
    an equals sign, or a weight that is no number. *)
Inductive malformed : string -> Prop :=
| no_colon line :
    ~ Py.has_char ":" line -> malformed line
| pair_without_equals name spec p :
    ~ Py.has_char ":" name ->
    In p (Py.split "," spec) -> ~ Py.has_char "=" p ->
    malformed (name ++ ":" ++ spec)%string
| weight_not_a_number name spec task weight e :
    ~ Py.has_char ":" name ->
    In (task ++ "=" ++ weight)%string (Py.split "," spec) ->
    ~ Py.has_char "=" task -> ~ Py.has_char "=" weight ->
    py_float (Py.strip weight) = Raise e ->
    malformed (name ++ ":" ++ spec)%string.

(** The step the error line names, from the text of the log alone. *)
Definition step_named (text step : string) : Prop :=
  (occurs "Step 2" text /\ step = "Setup Workflow")
  \/ (~ occurs "Step 2" text /\ occurs "Step 3" text /\ step = "Run Analysis")
  \/ (~ occurs "Step 2" text /\ ~ occurs "Step 3" text
      /\ occurs "Step 4" text /\ step = "Save Results")
  \/ (~ occurs "Step 2" text /\ ~ occurs "Step 3" text
      /\ ~ occurs "Step 4" text /\ step = "Unknown").

(** A pair the inner loop stops at. *)
Definition bad_pair (p : string) : Prop :=
  match Py.unpack2 (Py.split "=" p) with
  | Raise _ => True
  | Ok (_, weight) => exists e, py_float (Py.strip weight) = Raise e
  end.


(** The rows of the events table, as pairs of the trial type and the
    value of one other column. *)
Definition rows (trial_type values : column) : list (cell * cell) :=
  combine trial_type values.

(** The row is one of trial type [t]. *)
Definition is_trial (t : string) (r : cell * cell) : bool :=
  match fst r with
  | CStr s => String.eqb s t
  | CNum _ => false
  end.

(** An onset reduced by ten. *)
Definition reduced (x : cell) (y : num) : Prop :=
  exists v, x = CNum v /\ y = num_sub v (num_of_Z 10).

(** A confound value with NaN replaced by nought. *)
Definition nan_to_zero (x : cell) : cell :=
  match x with
  | CNum v => if num_isnan v then CNum (num_of_Z 0) else x
  | CStr _ => x
  end.

End Wording.

(** The paths of the pictures saved, in the order of the calls. *)
Fixpoint saved {N : Numbers} {Image : Type}
  (tr : list (@event N Image)) : list string :=
  match tr with
  | [] => []
  | EvSaveFig p :: tr' => p :: saved tr'
  | _ :: tr' => saved tr'
  end.

(** ** A small world to run the handlers in *)

Module Demo.

Definition digit (c : ascii) : option Z :=
  match c with
  | "0"%char => Some 0%Z
  | "1"%char => Some 1%Z
  | "2"%char => Some 2%Z
  | "3"%char => Some 3%Z
  | "4"%char => Some 4%Z
  | "5"%char => Some 5%Z
  | "6"%char => Some 6%Z
  | "7"%char => Some 7%Z
  | "8"%char => Some 8%Z
  | "9"%char => Some 9%Z
  | _ => None
  end.

Fixpoint digits (s : string) (acc : Z) : option Z :=
  match s with
  | "" => Some acc
  | String c s' =>
      match digit c with
      | Some d => digits s' (10 * acc + d)%Z
      | None => None
      end
  end.

(** Integer literals, with an optional sign. *)
Definition read_int (s : string) : option Z :=
  match s with
  | "" => None
  | String "-" ((String _ _) as d) => option_map Z.opp (digits d 0)
  | String "+" ((String _ _) as d) => digits d 0
  | d => digits d 0
  end.

(** Numbers are the integers and NaN; [float] reads integer literals. *)
#[export] Instance IntNumbers : Numbers := {|
  num := option Z;
  py_float := fun s =>
    match read_int s with
    | Some z => Ok (Some z)
    | None => Raise (Py.ValueError
                       ("could not convert string to float: '" ++ s ++ "'"))
    end;
  num_of_Z := fun z => Some z;
  num_sub := fun a b =>
    match a, b with
    | Some x, Some y => Some (x - y)%Z
    | _, _ => None
    end;
  num_isnan := fun a => match a with None => true | Some _ => false end
|}.

Definition events_frame : frame :=
  [ ("onset", [CNum (Some 10%Z); CNum (Some 40%Z); CNum (Some 70%Z)]);
    ("duration", [CNum (Some 15%Z); CNum (Some 15%Z); CNum (Some 20%Z)]);
    ("trial_type", [CStr "Finger"; CStr "Foot"; CStr "Finger"]) ].

Definition confounds_frame : frame :=
  [ ("trans_x", [CNum None; CNum (Some 1%Z); CNum (Some 2%Z);
                 CNum (Some 3%Z); CNum None; CNum (Some 5%Z)]);
    ("trans_y", [CNum (Some 0%Z); CNum (Some 0%Z); CNum (Some 0%Z);
                 CNum (Some 0%Z); CNum (Some 7%Z); CNum None]) ].

(** Every library call succeeds. *)
Definition quiet : World unit string := {|
  raises := fun _ _ => None;
  picked := fun _ _ => "/data/bids";
  layout_of := fun _ _ => tt;
  files_of := fun _ _ q => [("/data/bids/sub-01_" ++ q_suffix q)%string];
  frame_of := fun _ p =>
    if Py.contains "events" p then events_frame else confounds_frame;
  zstats_of := fun _ _ => [["zstat1.nii.gz"; "zstat2.nii.gz"]];
  smoothed := fun _ img => img
|}.

(** Every library call fails. *)
Definition broken : World unit string := {|
  raises := fun _ _ => Some (Exn "OSError" "No such file or directory");
  picked := fun _ _ => "/data/bids";
  layout_of := fun _ _ => tt;
  files_of := fun _ _ _ => [];
  frame_of := fun _ _ => [];
  zstats_of := fun _ _ => [];
  smoothed := fun _ img => img
|}.

(** The window once both folders are chosen and a layout is loaded. *)
Definition ready : gui unit :=
  {| bids_dir := "/data/bids"; output_dir := "/out"; layout := Some tt;
     lbl_bids := "bids"; lbl_output := "out";
     txt_tasks := "Finger, Foot"; txt_session := "test";
     txt_contrasts := "A: Finger=1, Foot=-1";
     combo_items := ["trans_x"; "trans_y"]; combo_index := Some 0;
     combo_enabled := true; status := "Ready" |}.

(** The same window with a contrast line that has no colon. *)
Definition mistyped : gui unit :=
  {| bids_dir := "/data/bids"; output_dir := "/out"; layout := Some tt;
     lbl_bids := "bids"; lbl_output := "out";
     txt_tasks := "Finger, Foot"; txt_session := "test";
     txt_contrasts := "Finger=1";
     combo_items := ["trans_x"; "trans_y"]; combo_index := Some 0;
     combo_enabled := true; status := "Ready" |}.

(** A combo box holding [x] and [xy], with [x] selected. *)
Definition two_columns : gui unit :=
  {| bids_dir := "/data/bids"; output_dir := "/out"; layout := Some tt;
     lbl_bids := "bids"; lbl_output := "out";
     txt_tasks := "Finger, Foot"; txt_session := "test";
     txt_contrasts := "A: Finger=1, Foot=-1";
     combo_items := ["x"; "xy"]; combo_index := Some 0;
     combo_enabled := true; status := "Ready" |}.



(** The workflow that a click on the first-level button runs in the
    quiet world. *)
Definition quiet_workflow : workflow :=
  {| wf_name := "Feat1stLevel";
     wf_base_dir := Some "/out";
     wf_in_func := Some "/data/bids/sub-01_bold";
     wf_brain_mask := Some "/data/bids/sub-01_brainmask";
     wf_subject_info :=
       Some [ {| conditions := ["Finger"; "Foot"];
                 onsets := [[Some 0%Z; Some 60%Z]; [Some 30%Z]];
                 durations := [[CNum (Some 15%Z); CNum (Some 20%Z)];
                               [CNum (Some 15%Z)]];
                 regressors := [[CNum (Some 0%Z); CNum (Some 5%Z)]];
                 regressor_names := ["trans_x"] |} ];
     wf_contrasts :=
       Some [ Contrast "A" "T" ["Finger"; "Foot"]
                       [Some 1%Z; Some (-1)%Z] ] |}.

(** The calls of that click, and the window it leaves. *)
Definition quiet_trace : list (event string) :=
  [ EvGet {| q_suffix := "bold"; q_task := Some "Finger";
             q_session := Some "test"; q_extension := ["nii.gz"] |};
    EvGet {| q_suffix := "brainmask"; q_task := Some "Finger";
             q_session := Some "test"; q_extension := ["nii.gz"] |};
    EvGet {| q_suffix := "events"; q_task := Some "Finger";
             q_session := Some "test"; q_extension := ["tsv"] |};
    EvGet {| q_suffix := "confounds"; q_task := None;
             q_session := None; q_extension := ["tsv"] |};
    EvReadCsv "/data/bids/sub-01_events";
    EvReadCsv "/data/bids/sub-01_confounds";
    EvWorkflow "Feat1stLevel";
    EvSetInput "in_func"; EvSetInput "brain_mask";
    EvSetInput "subject_info"; EvSetInput "contrasts";
    EvRun quiet_workflow;
    EvGzipOpen "/out/Feat1stLevel/modelestimate/result_modelestimate.pklz";
    EvPickleLoad "/out/Feat1stLevel/modelestimate/result_modelestimate.pklz";
    EvSmooth "zstat1.nii.gz"; EvPlot "zstat1.nii.gz";
    EvSaveFig "/out/zstat_0.png"; EvClose;
    EvSmooth "zstat2.nii.gz"; EvPlot "zstat2.nii.gz";
    EvSaveFig "/out/zstat_1.png"; EvClose ].

Definition quiet_done : gui unit :=
  with_status ready
    (qappend
       (qappend
          (qappend
             (qappend "Ready" "Step 2: Setting up first-level analysis...")
             "Step 3: Running first-level analysis...")
          "Step 4: Saving results...")
       "First-level analysis completed!").

End Demo.

(** ** Traces *)

Section Traces.
Context {N : Numbers} {Layout Image : Type}.

(** [m] leaves the window alone and makes only calls that satisfy [P]. *)
Definition emits {A} (P : @event N Image -> Prop) (m : M Layout Image A)
  : Prop :=
  forall s s' r, m s = (s', r) ->
    win s' = win s
    /\ exists evs, calls s' = calls s ++ evs /\ Forall P evs.

(** The calls of the [try] block before the workflow runs. *)
Definition setup_call (ev : @event N Image) : Prop :=
  match ev with
  | EvGet _ | EvReadCsv _ | EvSetInput _ => True
  | EvWorkflow name => name = "Feat1stLevel"
  | _ => False
  end.

(** The calls of the picture loop. *)
Definition picture_call (ev : @event N Image) : Prop :=
  match ev with
  | EvSmooth _ | EvPlot _ | EvSaveFig _ | EvClose => True
  | _ => False
  end.

(** The images smoothed, in the order of the calls. *)
Fixpoint smooths (tr : list (@event N Image)) : list Image :=
  match tr with
  | [] => []
  | EvSmooth img :: tr' => img :: smooths tr'
  | _ :: tr' => smooths tr'
  end.

(** The table [df] was read by a [pd.read_csv] of this trace. *)
Definition was_read (W : World Layout Image) (tr : list (@event N Image))
  (df : frame) : Prop :=
  exists before path after,
    tr = before ++ EvReadCsv path :: after /\ df = frame_of W before path.

(** The subject info the specification describes, for the tasks, the
    confound columns and the two tables. *)
Definition info_described (tasks cols : list string)
  (events confounds : frame) (b : Bunch) : Prop :=
  conditions b = tasks
  /\ regressor_names b = cols
  /\ (exists trial_type onset duration,
        get_column events "trial_type" = Some trial_type
        /\ get_column events "onset" = Some onset
        /\ get_column events "duration" = Some duration
        /\ Forall2 (fun t os =>
                      Forall2 reduced
                        (map snd (filter (is_trial t) (rows trial_type onset)))
                        os)
                   tasks (onsets b)
        /\ Forall2 (fun t ds =>
                      ds = map snd (filter (is_trial t)
                                           (rows trial_type duration)))
                   tasks (durations b))
  /\ Forall2 (fun c reg =>
                exists col, get_column confounds c = Some col
                            /\ reg = skipn 4 (map nan_to_zero col))
             cols (regressors b).

Variable W : World Layout Image.

(** A call of the workflow's [run]. *)
Definition is_run (ev : event Image) : Prop :=
  match ev with EvRun _ => True | _ => False end.

(** A call of [pickle.load]. *)
Definition is_load (ev : event Image) : Prop :=
  match ev with EvPickleLoad _ => True | _ => False end.

(** The calls of the [try] block after the workflow ran: the two loads
    from the one path, then pictures. *)
Definition result_call (out : string) (ev : event Image) : Prop :=
  match ev with
  | EvGzipOpen q | EvPickleLoad q => q = result_path out
  | _ => picture_call ev
  end.

(** The picture calls for the images [imgs]: the pictures saved are
    numbered from nought, and every image has its picture when no
    picture call raises. *)
Definition loop_shape (out : string) (imgs : list Image)
  (pics : list (event Image)) : Prop :=
  Forall picture_call pics
  /\ exists k,
      k <= length imgs
      /\ saved pics = map (zstat_path out) (seq 0 k)
      /\ ((forall h ev, picture_call ev -> raises W h ev = None) ->
          k = length imgs /\ smooths pics = imgs).

(** The calls that follow the workflow's run, after the calls [h]. *)
Definition run_shape (out : string) (h : list (event Image)) (wf : workflow)
  (rest : list (event Image)) : Prop :=
  let p := result_path out in
  match raises W h (EvRun wf) with
  | Some _ => rest = []
  | None =>
      match raises W (h ++ [EvRun wf]) (EvGzipOpen p) with
      | Some _ => rest = [EvGzipOpen p]
      | None =>
          let h3 := (h ++ [EvRun wf]) ++ [EvGzipOpen p] in
          match raises W h3 (EvPickleLoad p) with
          | Some _ => rest = [EvGzipOpen p; EvPickleLoad p]
          | None =>
              match Py.index0 (zstats_of W h3 p) with
              | Raise _ => rest = [EvGzipOpen p; EvPickleLoad p]
              | Ok imgs =>
                  exists pics,
                    rest = EvGzipOpen p :: EvPickleLoad p :: pics
                    /\ loop_shape out imgs pics
              end
          end
      end
  end.

(** What the [try] block has put into the workflow when it runs it. *)
Definition setup_facts (g : gui Layout) (evs : list (event Image))
  (wf : workflow) : Prop :=
  wf_name wf = "Feat1stLevel"
  /\ wf_base_dir wf = Some (output_dir g)
  /\ exists cs events confounds b,
      wf_contrasts wf = Some cs
      /\ parse_contrasts (txt_contrasts g) = Ok cs
      /\ wf_subject_info wf = Some [b]
      /\ make_info (tasks_of g) (confound_cols g) events confounds = Ok b
      /\ was_read W evs events
      /\ was_read W evs confounds.

End Traces.

(** ** More of the specification's wording *)

Section MoreWording.
Context {N : Numbers}.

(** How often the character occurs in the text. *)
Fixpoint count_char (c : ascii) (s : string) : nat :=
  match s with
  | "" => 0
  | String a s' => (if Ascii.eqb a c then 1 else 0) + count_char c s'
  end.

(** [k in l] for a list of strings. *)
Definition mem (k : string) (l : list string) : bool :=
  existsb (String.eqb k) l.

(** The names of [l] in the order of their first appearance, leaving
    out those already [seen]. *)
Fixpoint first_seen (seen l : list string) : list string :=
  match l with
  | [] => []
  | x :: l' =>
      if mem x seen then first_seen seen l'
      else x :: first_seen (seen ++ [x]) l'
  end.

(** The value written last for the key [k]. *)
Fixpoint last_of {V} (k : string) (kvs : list (string * V)) : option V :=
  match kvs with
  | [] => None
  | (k', v) :: kvs' =>
      match last_of k kvs' with
      | Some v' => Some v'
      | None => if String.eqb k' k then Some v else None
      end
  end.

(** [d.get(k)] *)
Fixpoint dict_get {V} (d : Py.dict V) (k : string) : option V :=
  match d with
  | [] => None
  | (k', v) :: d' => if String.eqb k' k then Some v else dict_get d' k
  end.

(** The line is not blank. *)
Definition nonblank (line : string) : bool :=
  negb (String.eqb (Py.strip line) "").

(** A pair of a contrast line that stops the parser: not exactly one
    equals sign, or a weight that is no number. *)
Definition unparsable_pair (p : string) : Prop :=
  count_char "=" p <> 1
  \/ exists task weight e,
      p = (task ++ "=" ++ weight)%string
      /\ py_float (Py.strip weight) = Raise e.

(** A contrast line that stops the parser: no colon, or a bad pair
    after the first colon. *)
Definition unparsable (line : string) : Prop :=
  ~ Py.has_char ":" line
  \/ exists name spec p,
      line = (name ++ ":" ++ spec)%string
      /\ ~ Py.has_char ":" name
      /\ In p (Py.split "," spec)
      /\ unparsable_pair p.

(** What holds of every contrast the parser returns. *)
Definition sound_contrast (c : contrast) : Prop :=
  c_type c = "T"
  /\ c_conditions c <> []
  /\ NoDup (c_conditions c)
  /\ length (c_weights c) = length (c_conditions c).

End MoreWording.

(** ** More on the window *)

Section MoreWindow.
Context {N : Numbers} {Layout Image : Type}.

(** [m] changes nothing of the window but the log, and the log only
    by adding to its end. *)
Definition appends_log {A} (m : M Layout Image A) : Prop :=
  forall s s' r, m s = (s', r) ->
    exists more, win s' = with_status (win s) (status (win s) ++ more).

(** The state in which the [try] block of [run_first_level] starts. *)
Definition step2 (g : gui Layout) : state Layout Image :=
  enter (with_status g
           (qappend (status g) "Step 2: Setting up first-level analysis...")).

(** The query [run_first_level] makes for the files of the first task. *)
Definition task_query (g : gui Layout) (suffix extension : string) : query :=
  {| q_suffix := suffix;
     q_task := Some (hd "" (tasks_of g));
     q_session := Some (Py.strip (txt_session g));
     q_extension := [extension] |}.

(** The query for the confounds table, in [run_first_level] and in
    [choose_bids]. *)
Definition confounds_query (extensions : list string) : query :=
  {| q_suffix := "confounds"; q_task := None; q_session := None;
     q_extension := extensions |}.

(** The calls of [run_first_level] before it runs the workflow, when
    none of them fails. *)
Definition setup_calls (g : gui Layout) (events_file confounds_file : string)
  : list (@event N Image) :=
  [ EvGet (task_query g "bold" "nii.gz");
    EvGet (task_query g "brainmask" "nii.gz");
    EvGet (task_query g "events" "tsv");
    EvGet (confounds_query ["tsv"]);
    EvReadCsv events_file;
    EvReadCsv confounds_file;
    EvWorkflow "Feat1stLevel";
    EvSetInput "in_func"; EvSetInput "brain_mask";
    EvSetInput "subject_info"; EvSetInput "contrasts" ].

(** The four lookups of [run_first_level], in the order it makes them. *)
Definition lookups (g : gui Layout) : list (@event N Image) :=
  [ EvGet (task_query g "bold" "nii.gz");
    EvGet (task_query g "brainmask" "nii.gz");
    EvGet (task_query g "events" "tsv");
    EvGet (confounds_query ["tsv"]) ].

(** [events_file]: the first file the layout [l] gives for the events
    of the first task, asked third. *)
Definition events_file_of (W : World Layout Image) (g : gui Layout)
  (l : Layout) : result string :=
  Py.index0 (files_of W (firstn 2 (lookups g)) l (task_query g "events" "tsv")).

(** [confounds_file]: the first file the layout [l] gives for the
    confounds, asked fourth. *)
Definition confounds_file_of (W : World Layout Image) (g : gui Layout)
  (l : Layout) : result string :=
  Py.index0 (files_of W (firstn 3 (lookups g)) l (confounds_query ["tsv"])).

(** [events]: what [read_csv] returns for the events file, read once
    the four lookups are made. *)
Definition events_table (W : World Layout Image) (g : gui Layout)
  (events_file : string) : frame :=
  frame_of W (lookups g) events_file.

(** [confounds]: what [read_csv] returns for the confounds file, read
    next. *)
Definition confounds_table (W : World Layout Image) (g : gui Layout)
  (events_file confounds_file : string) : frame :=
  frame_of W (lookups g ++ [EvReadCsv events_file]) confounds_file.

(** The file variable the [except] block of [run_first_level] reads
    for its line while "Step 2" is in the log, by the message of the
    exception. *)
Definition wanted_file (msg : string) : string :=
  if Py.contains "bold" msg then "bold_file"
  else if Py.contains "events" msg then "events_file"
  else "confounds_file".

(** The window after [choose_bids] has loaded the layout [l] and the
    columns [cols] from the folder. *)
Definition loaded (g : gui Layout) (folder : string) (l : Layout)
  (cols : list string) : gui Layout :=
  {| bids_dir := folder; output_dir := output_dir g; layout := Some l;
     lbl_bids := Py.basename folder; lbl_output := lbl_output g;
     txt_tasks := txt_tasks g; txt_session := txt_session g;
     txt_contrasts := txt_contrasts g; combo_items := cols;
     combo_index := match cols with [] => None | _ :: _ => Some 0 end;
     combo_enabled := true;
     status := qappend (qappend (status g) "Step 1: Loading BIDS layout...")
                       "BIDS layout loaded successfully." |}.

End MoreWindow.

(** ** What loading leaves alone *)

Section MoreLoading.
Context {N : Numbers} {Layout Image : Type}.

(** The window [g'] has the folders, the labels and the three text
    fields of [g]: it differs at most in the layout, the combo box and
    the log. *)
Definition same_entries (g g' : gui Layout) : Prop :=
  bids_dir g' = bids_dir g
  /\ lbl_bids g' = lbl_bids g
  /\ output_dir g' = output_dir g
  /\ lbl_output g' = lbl_output g
  /\ txt_tasks g' = txt_tasks g
  /\ txt_session g' = txt_session g
  /\ txt_contrasts g' = txt_contrasts g.

(** [m] leaves these fields as they are, whether it returns or raises. *)
Definition keeps_entries {A} (m : M Layout Image A) : Prop :=
  forall s s' r, m s = (s', r) -> same_entries (win s) (win s').

End MoreLoading.

(** ** More concrete inputs *)

Module Cases.

(** Every library call succeeds but the run of the workflow. *)
Definition run_fails : World (N := Demo.IntNumbers) unit string := {|
  raises := fun _ ev =>
    match ev with
    | EvRun _ => Some (Exn "RuntimeError" "Workflow did not execute cleanly")
    | _ => None
    end;
  picked := fun _ _ => "/data/bids";
  layout_of := fun _ _ => tt;
  files_of := fun _ _ q => [("/data/bids/sub-01_" ++ q_suffix q)%string];
  frame_of := fun _ p =>
    if Py.contains "events" p then Demo.events_frame
    else Demo.confounds_frame;
  zstats_of := fun _ _ => [];
  smoothed := fun _ img => img
|}.

Definition run_error : exn :=
  Exn "RuntimeError" "Workflow did not execute cleanly".

(** Both folders chosen, no layout loaded. *)
Definition unloaded : gui unit :=
  {| bids_dir := "/data/bids"; output_dir := "/out"; layout := None;
     lbl_bids := "bids"; lbl_output := "out";
     txt_tasks := "Finger, Foot"; txt_session := "test";
     txt_contrasts := "A: Finger=1, Foot=-1";
     combo_items := []; combo_index := None;
     combo_enabled := false; status := "Ready" |}.

(** The state in which the [try] block ends when the run of the
    workflow raises. *)
Definition failed_run : state unit string :=
  {| win := with_status Demo.ready
              (qappend
                 (qappend (status Demo.ready)
                          "Step 2: Setting up first-level analysis...")
                 "Step 3: Running first-level analysis...");
     vars := [("bold_file", "/data/bids/sub-01_bold");
              ("mask_file", "/data/bids/sub-01_brainmask");
              ("events_file", "/data/bids/sub-01_events");
              ("confounds_file", "/data/bids/sub-01_confounds")];
     calls := setup_calls Demo.ready "/data/bids/sub-01_events"
                          "/data/bids/sub-01_confounds"
              ++ [EvRun Demo.quiet_workflow] |}.

End Cases.

(** * Facts *)

(** ** Strings *)

Module PyFacts.
Import Py.

Lemma append_nil_r (s : string) : (s ++ "")%string = s.
Proof. induction s as [|c s IH]; simpl; [reflexivity | now rewrite IH]. Qed.

Lemma append_assoc (a b c : string) :
  ((a ++ b) ++ c)%string = (a ++ (b ++ c))%string.
Proof. induction a as [|x a IH]; simpl; [reflexivity | now rewrite IH]. Qed.

Lemma has_char_app (c : ascii) (a b : string) :
  has_char c (a ++ b) <-> has_char c a \/ has_char c b.
Proof.
  induction a as [|x a IH]; simpl.
  - tauto.
  - rewrite IH. tauto.
Qed.

Lemma startswith_spec (p s : string) :
  startswith p s = true <-> exists rest, s = (p ++ rest)%string.
Proof.
  revert s. induction p as [|a p IH]; intros s; simpl.
  - split; [intros _; now exists s | reflexivity].
  - destruct s as [|b s].
    + split; [discriminate | intros [rest H]; discriminate].
    + rewrite andb_true_iff, IH, Ascii.eqb_eq. split.
      * intros [-> [rest ->]]. now exists rest.
      * intros [rest H]. injection H as -> ->. split; [reflexivity | now exists rest].
Qed.

(** [in] on strings is the substring test. *)
Lemma contains_occurs (needle hay : string) :
  contains needle hay = true <-> occurs needle hay.
Proof.
  unfold occurs. induction hay as [|c hay IH].
  - simpl. rewrite orb_false_r, startswith_spec. split.
    + intros [rest H]. exists "", rest. exact H.
    + intros [before [after H]]. destruct before; simpl in H.
      * now exists after.
      * discriminate.
  - simpl. rewrite orb_true_iff, startswith_spec, IH. split.
    + intros [[rest H] | [before [after H]]].
      * exists "", rest. exact H.
      * exists (String c before), after. simpl. now rewrite H.
    + intros [before [after H]]. destruct before as [|x before]; simpl in H.
      * left. now exists after.
      * injection H as _ H. right. now exists before, after.
Qed.


Lemma split_cons (c : ascii) (s : string) :
  exists w ws, split c s = w :: ws.
Proof.
  induction s as [|x s [w [ws IH]]]; simpl.
  - now exists "", [].
  - destruct (Ascii.eqb x c); [now eexists; eexists |].
    rewrite IH. now eexists; eexists.
Qed.

Lemma split_plain (c : ascii) (s : string) :
  ~ has_char c s -> split c s = [s].
Proof.
  induction s as [|x s IH]; simpl; intros H; [reflexivity |].
  destruct (Ascii.eqb_spec x c) as [-> | _]; [exfalso; apply H; now left |].
  rewrite IH; [reflexivity | intros H'; apply H; now right].
Qed.

Lemma split_app (c : ascii) (a b : string) :
  ~ has_char c a -> split c (a ++ String c b) = a :: split c b.
Proof.
  induction a as [|x a IH]; simpl; intros H.
  - now rewrite Ascii.eqb_refl.
  - destruct (Ascii.eqb_spec x c) as [-> | _]; [exfalso; apply H; now left |].
    rewrite IH; [reflexivity | intros H'; apply H; now right].
Qed.

Lemma split_join (c : ascii) (l : list string) :
  l <> [] -> Forall (fun x => ~ has_char c x) l ->
  split c (join (String c "") l) = l.
Proof.
  induction l as [|x l IH]; intros Hne Hall; [congruence |].
  inversion Hall as [|? ? Hx Hl]; subst.
  destruct l as [|y l].
  - simpl. now apply split_plain.
  - change (join (String c "") (x :: y :: l))
      with (x ++ String c (join (String c "") (y :: l)))%string.
    rewrite split_app by assumption. f_equal. apply IH; [discriminate | assumption].
Qed.

Lemma split1_plain (c : ascii) (s : string) :
  ~ has_char c s -> split1 c s = [s].
Proof.
  induction s as [|x s IH]; simpl; intros H; [reflexivity |].
  destruct (Ascii.eqb_spec x c) as [-> | _]; [exfalso; apply H; now left |].
  rewrite IH; [reflexivity | intros H'; apply H; now right].
Qed.

Lemma split1_app (c : ascii) (a b : string) :
  ~ has_char c a -> split1 c (a ++ String c b) = [a; b].
Proof.
  induction a as [|x a IH]; simpl; intros H.
  - now rewrite Ascii.eqb_refl.
  - destruct (Ascii.eqb_spec x c) as [-> | _]; [exfalso; apply H; now left |].
    rewrite IH; [reflexivity | intros H'; apply H; now right].
Qed.

Lemma lstrip_keeps (c : ascii) (s : string) :
  isspace c = false -> has_char c s -> has_char c (lstrip s).
Proof.
  intros Hc. induction s as [|x s IH]; simpl; [tauto |].
  intros [-> | H].
  - rewrite Hc. now left.
  - destruct (isspace x); [now apply IH | now right].
Qed.

Lemma rstrip_keeps (c : ascii) (s : string) :
  isspace c = false -> has_char c s -> rstrip s <> "".
Proof.
  intros Hc. induction s as [|x s IH]; simpl; [tauto |].
  intros [-> | H].
  - rewrite Hc. destruct (rstrip s); discriminate.
  - specialize (IH H). destruct (rstrip s); [congruence | discriminate].
Qed.

(** A line with a character that is no blank is not a blank line. *)
Lemma strip_nonblank (c : ascii) (s : string) :
  isspace c = false -> has_char c s -> strip s <> "".
Proof.
  intros Hc H. unfold strip.
  apply rstrip_keeps with c; [assumption | now apply lstrip_keeps].
Qed.

End PyFacts.

(** ** Contrast parsing *)

Section ContrastFacts.
Context {N : Numbers}.
Import Py PyFacts.

Lemma dict_set_fresh {V} (d : dict V) (k : string) (v : V) :
  ~ In k (keys d) -> dict_set d k v = d ++ [(k, v)].
Proof.
  induction d as [|[k' v'] d IH]; simpl; intros H; [reflexivity |].
  destruct (String.eqb_spec k' k) as [-> | _]; [exfalso; apply H; now left |].
  rewrite IH; [reflexivity | intros H'; apply H; now right].
Qed.

Lemma keys_app {V} (d1 d2 : dict V) : keys (d1 ++ d2) = keys d1 ++ keys d2.
Proof. apply map_app. Qed.

Lemma values_app {V} (d1 d2 : dict V) :
  values (d1 ++ d2) = values d1 ++ values d2.
Proof. apply map_app. Qed.

Lemma split_pair_text (p : string * string) :
  ~ has_char "=" (fst p) -> ~ has_char "=" (snd p) ->
  split "=" (pair_text p) = [fst p; snd p].
Proof.
  intros Hc Hw. unfold pair_text.
  change (fst p ++ "=" ++ snd p)%string with (fst p ++ String "=" (snd p))%string.
  rewrite split_app by assumption. now rewrite split_plain.
Qed.

(** Pairs with fresh, distinct conditions are appended in their order. *)
Lemma parse_pairs_distinct (pairs : list (string * string)) :
  forall (ws : list num) (acc : dict num),
    Forall (fun p => plain (fst p) /\ plain (snd p)) pairs ->
    Forall2 (fun p w => py_float (strip (snd p)) = Ok w) pairs ws ->
    NoDup (keys acc ++ map (fun p => strip (fst p)) pairs) ->
    parse_pairs (map pair_text pairs) acc
    = Ok (acc ++ combine (map (fun p => strip (fst p)) pairs) ws).
Proof.
  induction pairs as [|p pairs IH]; intros ws acc Hplain Hws Hnd.
  - inversion Hws; subst. simpl. now rewrite app_nil_r.
  - inversion Hws as [|? w ? ws' Hw Hws']; subst.
    inversion Hplain as [|? ? [[_ [Hc _]] [_ [Hv _]]] Hplain']; subst.
    simpl. rewrite split_pair_text by assumption. simpl. rewrite Hw. simpl.
    assert (Hfresh : ~ In (strip (fst p)) (keys acc)).
    { intros Hin. apply NoDup_remove_2 in Hnd. apply Hnd.
      apply in_or_app. now left. }
    rewrite dict_set_fresh by assumption.
    rewrite IH with (ws := ws'); try assumption.
    + now rewrite <- app_assoc.
    + rewrite keys_app. simpl. rewrite <- app_assoc. simpl.
      apply NoDup_Add with (a := strip (fst p))
                           (l := keys acc ++ map (fun q => strip (fst q)) pairs).
      * apply Add_app.
      * split; [now apply NoDup_remove_1 in Hnd | now apply NoDup_remove_2 in Hnd].
Qed.

Lemma has_char_join (c : ascii) (sep : string) (l : list string) :
  ~ has_char c sep -> Forall (fun x => ~ has_char c x) l ->
  ~ has_char c (join sep l).
Proof.
  intros Hsep. induction l as [|x l IH]; intros Hall.
  - simpl. tauto.
  - inversion Hall as [|? ? Hx Hl]; subst. destruct l as [|y l].
    + exact Hx.
    + change (join sep (x :: y :: l)) with (x ++ sep ++ join sep (y :: l))%string.
      rewrite !has_char_app. specialize (IH Hl). tauto.
Qed.

Lemma pair_text_no (c : ascii) (p : string * string) :
  c <> "="%char -> ~ has_char c (fst p) -> ~ has_char c (snd p) ->
  ~ has_char c (pair_text p).
Proof.
  intros Hc Hf Hs. unfold pair_text. rewrite !has_char_app. simpl.
  intros [H | [[H | []] | H]]; [tauto | congruence | tauto].
Qed.

Lemma combine_keys {V} (ks : list string) (vs : list V) :
  length ks = length vs -> keys (combine ks vs) = ks.
Proof.
  revert vs. induction ks as [|k ks IH]; intros [|v vs] H; simpl in *;
    try reflexivity; try discriminate.
  unfold keys in *. simpl. f_equal. apply IH. now injection H.
Qed.

Lemma combine_values {V} (ks : list string) (vs : list V) :
  length ks = length vs -> values (combine ks vs) = vs.
Proof.
  revert vs. induction ks as [|k ks IH]; intros [|v vs] H; simpl in *;
    try reflexivity; try discriminate.
  unfold values in *. simpl. f_equal. apply IH. now injection H.
Qed.

Lemma parse_lines_one (line : string) (c : contrast) :
  strip line <> "" -> parse_line line = Ok c ->
  parse_lines [line] [] = Ok [c].
Proof.
  intros Hnb Hc. simpl.
  destruct (String.eqb_spec (strip line) ""); [contradiction |].
  now rewrite Hc.
Qed.

(** A line whose conditions, once stripped, are pairwise distinct parses
    to the record the specification promises. *)
Lemma parse_contrasts_distinct (name : string) (pairs : list (string * string))
  (ws : list num) :
  ~ has_char ":" name -> ~ has_char nl name ->
  pairs <> [] ->
  Forall (fun p => plain (fst p) /\ plain (snd p)) pairs ->
  Forall2 (fun p w => py_float (strip (snd p)) = Ok w) pairs ws ->
  NoDup (map (fun p => strip (fst p)) pairs) ->
  parse_contrasts (contrast_line name pairs) = Ok [spec_contrast name pairs ws].
Proof.
  intros Hcolon Hnl Hne Hplain Hws Hnd.
  set (spec := join "," (map pair_text pairs)).
  assert (Hline : contrast_line name pairs = (name ++ String ":" spec)%string)
    by reflexivity.
  assert (Hspec_nl : ~ has_char nl spec).
  { apply has_char_join.
    - simpl. intros [H | []]. discriminate.
    - apply Forall_map. eapply Forall_impl; [| exact Hplain].
      intros p [[_ [_ Hc]] [_ [_ Hv]]]. apply pair_text_no; [discriminate | assumption ..]. }
  unfold parse_contrasts. rewrite Hline.
  rewrite split_plain.
  2:{ rewrite has_char_app. simpl. intros [H | [H | H]];
      [tauto | discriminate | tauto]. }
  apply parse_lines_one.
  - apply strip_nonblank with (c := ":"%char); [reflexivity |].
    rewrite has_char_app. right. now left.
  - unfold parse_line. rewrite split1_app by assumption. simpl.
    unfold spec. rewrite split_join.
    + rewrite parse_pairs_distinct with (ws := ws); try assumption.
      assert (Hlen : length (map (fun p => strip (fst p)) pairs) = length ws).
      { rewrite length_map. eapply Forall2_length; eassumption. }
      simpl. now rewrite combine_keys, combine_values by exact Hlen.
    + destruct pairs; [congruence | discriminate].
    + apply Forall_map. eapply Forall_impl; [| exact Hplain].
      intros p [[Hc _] [Hv _]]. apply pair_text_no; [discriminate | assumption ..].
Qed.

End ContrastFacts.

Section MalformedFacts.
Context {N : Numbers}.
Import Py PyFacts.

Lemma parse_pairs_raises (pairs : list string) :
  Exists bad_pair pairs ->
  forall acc, exists e, parse_pairs pairs acc = Raise e.
Proof.
  induction pairs as [|p pairs IH]; intros Hex acc.
  - inversion Hex.
  - simpl. unfold bad_pair in Hex.
    destruct (unpack2 (split "=" p)) as [[task weight] | e] eqn:Hu; simpl.
    + destruct (py_float (strip weight)) as [w | e] eqn:Hw; simpl.
      * apply IH. inversion Hex as [? ? Hbad | ? ? Htl]; subst; [| exact Htl].
        rewrite Hu in Hbad. destruct Hbad as [e He]. congruence.
      * now exists e.
    + now exists e.
Qed.

Lemma parse_line_raises (line : string) :
  malformed line -> exists e, parse_line line = Raise e.
Proof.
  intros H. unfold parse_line. destruct H as
    [line Hno | name spec p Hname Hin Hp
     | name spec task weight e Hname Hin Ht Hw Hfloat].
  - rewrite split1_plain by assumption. simpl. eauto.
  - change (name ++ ":" ++ spec)%string with (name ++ String ":" spec)%string.
    rewrite split1_app by assumption. simpl.
    destruct (@parse_pairs_raises (split "," spec)) with (acc := @nil (string * num))
      as [e He].
    + apply Exists_exists. exists p. split; [assumption |].
      unfold bad_pair. now rewrite split_plain.
    + rewrite He. simpl. eauto.
  - change (name ++ ":" ++ spec)%string with (name ++ String ":" spec)%string.
    rewrite split1_app by assumption. simpl.
    destruct (@parse_pairs_raises (split "," spec)) with (acc := @nil (string * num))
      as [e' He].
    + apply Exists_exists. exists (task ++ "=" ++ weight)%string.
      split; [assumption |]. unfold bad_pair.
      change (task ++ "=" ++ weight)%string with (task ++ String "=" weight)%string.
      rewrite split_app, split_plain by assumption. simpl. eauto.
    + rewrite He. simpl. eauto.
Qed.

Lemma parse_lines_raises (lines : list string) (line : string) :
  In line lines -> strip line <> "" -> malformed line ->
  forall acc, exists e, parse_lines lines acc = Raise e.
Proof.
  intros Hin Hnb Hbad. induction lines as [|l lines IH]; intros acc.
  - inversion Hin.
  - simpl. destruct (String.eqb_spec (strip l) "") as [Hblank | Hfull].
    + destruct Hin as [-> | Hin]; [contradiction | now apply IH].
    + destruct (parse_line l) as [c | e] eqn:Hl; simpl; [| now exists e].
      destruct Hin as [-> | Hin]; [| now apply IH].
      destruct (parse_line_raises Hbad) as [e He]. congruence.
Qed.

(** Blank lines take no part in the result. *)
Lemma parse_lines_skips_blank (lines : list string) :
  forall acc,
    parse_lines lines acc
    = parse_lines (filter (fun l => negb (String.eqb (strip l) "")) lines) acc.
Proof.
  induction lines as [|l lines IH]; intros acc; [reflexivity |].
  simpl. destruct (String.eqb (strip l) "") eqn:Hb; simpl.
  - apply IH.
  - rewrite Hb. destruct (parse_line l); simpl; [apply IH | reflexivity].
Qed.

(** An exception of [parse_contrasts] arrives in the [except] block of
    [run_first_level] with nothing but the "Step 2" line logged. *)
Lemma run_first_level_parse_error {Layout Image : Type}
  (W : World Layout Image) (g : gui Layout) (e : exn) :
  bids_dir g <> "" -> output_dir g <> "" ->
  parse_contrasts (txt_contrasts g) = Raise e ->
  run_first_level W (enter g)
  = first_level_except e
      (enter (with_status g
                (qappend (status g)
                         "Step 2: Setting up first-level analysis..."))).
Proof.
  intros Hb Ho He.
  unfold run_first_level, bind, get_win, enter. cbn [win vars calls].
  apply String.eqb_neq in Hb, Ho. rewrite Hb, Ho. cbn [orb].
  unfold log, set_win, try_except. cbn [win vars calls].
  unfold first_level_try, first_level_setup, bind, get_win, lift.
  cbn [win vars calls txt_contrasts with_status].
  now rewrite He.
Qed.

End MalformedFacts.

(** ** The handlers *)

Section HandlerFacts.
Context {N : Numbers} {Layout Image : Type}.
Variable W : World Layout Image.
Import Py PyFacts.

(** C10: with the BIDS folder or the output folder still empty, the
    click shows the warning and returns: the window, the log with it,
    is as before and no library call was made. *)
Theorem run_first_level_needs_folders (g : gui Layout) :
  bids_dir g = "" \/ output_dir g = "" ->
  click (run_first_level W) g
  = (g, [EvWarning "Error" "Select BIDS and output folders!"], Ok tt).
Proof.
  intros H. unfold click, run_first_level, bind, get_win, enter.
  cbn [win vars calls].
  replace (String.eqb (bids_dir g) "" || String.eqb (output_dir g) "")
    with true.
  - reflexivity.
  - symmetry. apply orb_true_iff.
    destruct H as [-> | ->]; [left | right]; reflexivity.
Qed.

(** C7, as the code has it: the second-level button appends one line to
    the log, calls no library and raises nothing. *)
Theorem run_second_level_only_logs (g : gui Layout) :
  click (Image := Image) run_second_level g
  = (with_status g
       (qappend (status g) "Second-level analysis not implemented yet."),
     [], Ok tt).
Proof. reflexivity. Qed.

Lemma step_named_unique (text s1 s2 : string) :
  step_named text s1 -> step_named text s2 -> s1 = s2.
Proof. unfold step_named. intuition congruence. Qed.


Lemma pick_shift {A} (f : A -> bool) (d x : A) (l : list A) (idx : list nat) :
  map (fun i => nth i (x :: l) d)
      (filter (fun i => f (nth i (x :: l) d)) (map S idx))
  = map (fun i => nth i l d) (filter (fun i => f (nth i l d)) idx).
Proof.
  induction idx as [|i idx IH]; [reflexivity |].
  simpl map at 2. simpl filter.
  destruct (f (nth i l d)).
  - simpl map. f_equal. exact IH.
  - exact IH.
Qed.

Lemma pick_filter {A} (f : A -> bool) (d : A) (l : list A) :
  map (fun i => nth i l d) (filter (fun i => f (nth i l d)) (seq 0 (length l)))
  = filter f l.
Proof.
  induction l as [|x l IH]; [reflexivity |].
  cbn [length]. rewrite <- cons_seq, <- seq_shift.
  change (filter (fun i => f (nth i (x :: l) d)) (0 :: map S (seq 0 (length l))))
    with (if f x
          then 0 :: filter (fun i => f (nth i (x :: l) d)) (map S (seq 0 (length l)))
          else filter (fun i => f (nth i (x :: l) d)) (map S (seq 0 (length l)))).
  cbn [filter]. destruct (f x).
  - rewrite map_cons, pick_shift, IH. reflexivity.
  - rewrite pick_shift, IH. reflexivity.
Qed.

(** The columns kept are the items that pass the substring test. *)
Lemma confound_cols_filter (g : gui Layout) :
  confound_cols g
  = filter (fun x => contains x (currentText g)) (combo_items g).
Proof.
  unfold confound_cols, count, itemText.
  exact (pick_filter (fun x => contains x (currentText g)) "" (combo_items g)).
Qed.

Lemma filter_sorted (f : nat -> bool) (l : list nat) :
  StronglySorted lt l -> StronglySorted lt (filter f l).
Proof.
  induction 1 as [|x l Hs IH Hall]; cbn [filter]; [constructor |].
  destruct (f x); [| exact IH]. constructor; [exact IH |].
  apply Forall_forall. intros y Hy. apply filter_In in Hy.
  rewrite Forall_forall in Hall. now apply Hall.
Qed.

Lemma seq_sorted (n k : nat) : StronglySorted lt (seq k n).
Proof.
  revert k. induction n as [|n IH]; intros k; cbn [seq]; constructor.
  - apply IH.
  - apply Forall_forall. intros y Hy. apply in_seq in Hy. lia.
Qed.

(** C9, as the code has it: the confound columns are the items of the
    combo box whose text occurs in the text of the current item, in the
    order of their indices; an item whose text merely contains the
    current text is not among them unless it passes that test. *)
Theorem confound_cols_substrings (g : gui Layout) :
  exists idx : list nat,
    confound_cols g = map (itemText g) idx
    /\ StronglySorted lt idx
    /\ forall i, In i idx
                 <-> (i < count g /\ occurs (itemText g i) (currentText g)).
Proof.
  exists (filter (fun i => contains (itemText g i) (currentText g))
                 (seq 0 (count g))).
  split; [reflexivity |]. split.
  - apply filter_sorted, seq_sorted.
  - intros i. rewrite filter_In, in_seq, contains_occurs. intuition lia.
Qed.

Lemma occurs_qappend (needle text rest : string) :
  occurs needle (qappend text (needle ++ rest)).
Proof.
  unfold qappend, occurs. destruct (String.eqb text "").
  - now exists "", rest.
  - exists (text ++ NL)%string, rest. now rewrite append_assoc.
Qed.

(** When the dialog returns a folder and [BIDSLayout] raises, the
    [except] block of [choose_bids] finds [confounds_file] unbound. *)
Lemma choose_bids_layout_error (g : gui Layout) (e : exn) :
  picked W [] "Choose BIDS Folder" <> "" ->
  raises W [EvDirDialog "Choose BIDS Folder"]
         (EvBIDSLayout (picked W [] "Choose BIDS Folder")) = Some e ->
  click (choose_bids W) g
  = (with_status
       (with_bids g (picked W [] "Choose BIDS Folder")
                  (basename (picked W [] "Choose BIDS Folder")))
       (qappend (status g) "Step 1: Loading BIDS layout..."),
     [EvDirDialog "Choose BIDS Folder";
      EvBIDSLayout (picked W [] "Choose BIDS Folder")],
     Raise (UnboundLocalError "confounds_file")).
Proof.
  intros Hf He. apply String.eqb_neq in Hf.
  unfold click, choose_bids, bind, show, enter. cbn [win vars calls app].
  rewrite Hf. unfold set_win, try_except, bind, log, set_win, get_win, call.
  cbn [win vars calls app bids_dir with_bids with_status].
  rewrite He. reflexivity.
Qed.

(** When [parse_contrasts] raises, the [except] block of
    [run_first_level] finds the file it wants to name unbound. *)
Lemma run_first_level_parse_error_leaks (g : gui Layout) (e : exn) :
  bids_dir g <> "" -> output_dir g <> "" ->
  parse_contrasts (txt_contrasts g) = Raise e ->
  exists v,
    In v ["bold_file"; "events_file"; "confounds_file"]
    /\ click (run_first_level W) g
       = (with_status g
            (qappend (status g) "Step 2: Setting up first-level analysis..."),
          [], Raise (UnboundLocalError v)).
Proof.
  intros Hb Ho He. unfold click.
  rewrite (run_first_level_parse_error W g Hb Ho He).
  unfold first_level_except, bind, get_win, enter, local.
  cbn [win vars calls status with_status lookup].
  assert (H2 : contains "Step 2"
                 (qappend (status g)
                          "Step 2: Setting up first-level analysis...") = true).
  { apply contains_occurs.
    exact (occurs_qappend "Step 2" (status g)
             ": Setting up first-level analysis..."). }
  rewrite H2.
  destruct (contains "bold" (exn_str e));
    [| destruct (contains "events" (exn_str e))];
    eexists; (split; [| reflexivity]); cbn; auto.
Qed.

End HandlerFacts.

(** ** A malformed contrast line in a run *)

Section UnhandledFacts.
Context {N : Numbers}.
Import Py PyFacts.

(** C4: the text is cut at newlines and blank lines are skipped; a line
    with no colon, with a pair that has no equals sign, or with a
    weight that is no number makes [parse_contrasts] raise.  In
    [run_first_level] that exception goes straight to the [except]
    block, the only handler there is, and is not handled by it: the
    block reads a file variable that no assignment has reached, so
    [UnboundLocalError] leaves the click, with the "Step 2" line as the
    only line logged and no library call made. *)
Theorem malformed_line_raises (text line : string) :
  In line (split nl text) -> strip line <> "" -> malformed line ->
  parse_contrasts text
  = parse_lines
      (filter (fun l => negb (String.eqb (strip l) "")) (split nl text)) []
  /\ exists e,
      parse_contrasts text = Raise e
      /\ forall (Layout Image : Type) (W : World Layout Image)
                (g : gui Layout),
          bids_dir g <> "" -> output_dir g <> "" ->
          txt_contrasts g = text ->
          run_first_level W (enter g)
          = first_level_except e
              (enter (with_status g
                        (qappend (status g)
                           "Step 2: Setting up first-level analysis...")))
          /\ click (run_first_level W) g
             = (with_status g
                  (qappend (status g)
                     "Step 2: Setting up first-level analysis..."),
                [], Raise (UnboundLocalError (wanted_file (exn_str e)))).
Proof.
  intros Hin Hnb Hbad. split; [apply parse_lines_skips_blank |].
  destruct (parse_lines_raises _ Hin Hnb Hbad []) as [e He].
  exists e. split; [exact He |].
  intros Layout Image W g Hb Ho Ht. subst text.
  split; [now apply run_first_level_parse_error |].
  unfold click. rewrite (run_first_level_parse_error W g Hb Ho He).
  unfold first_level_except, bind, get_win, enter, local.
  cbn [win vars calls status with_status lookup].
  assert (H2 : contains "Step 2"
                 (qappend (status g)
                          "Step 2: Setting up first-level analysis...") = true).
  { apply contains_occurs.
    exact (occurs_qappend "Step 2" (status g)
             ": Setting up first-level analysis..."). }
  rewrite H2. unfold wanted_file.
  destruct (contains "bold" (exn_str e));
    [| destruct (contains "events" (exn_str e))]; reflexivity.
Qed.

End UnhandledFacts.

(** ** Tables *)

Section FrameFacts.
Context {N : Numbers}.

Lemma mapR_Forall2 {A B} (f : A -> result B) (l : list A) :
  forall ys, mapR f l = Ok ys -> Forall2 (fun x y => f x = Ok y) l ys.
Proof.
  induction l as [|x l IH]; simpl; intros ys H.
  - injection H as <-. constructor.
  - destruct (f x) as [y | e] eqn:Hx; simpl in H; [| discriminate].
    destruct (mapR f l) as [ys' | e]; simpl in H; [| discriminate].
    injection H as <-. constructor; [exact Hx | now apply IH].
Qed.

Lemma get_column_filter_rows (df : frame) (mask : list bool) (name : string) :
  get_column (filter_rows df mask) name
  = option_map (select mask) (get_column df name).
Proof.
  unfold get_column, filter_rows.
  induction df as [|[n c] df IH]; [reflexivity |].
  simpl. destruct (String.eqb n name); [reflexivity | exact IH].
Qed.

(** Masking a column by the trial type is filtering the rows. *)
Lemma select_rows (t : string) (trial_type values : column) :
  select (eq_str trial_type t) values
  = map snd (filter (is_trial t) (rows trial_type values)).
Proof.
  unfold rows. revert values.
  induction trial_type as [|x tt IH]; intros [|v values]; try reflexivity.
  simpl. unfold is_trial at 1. simpl.
  destruct x as [n | s]; [apply IH |].
  destruct (String.eqb s t); simpl; now rewrite IH.
Qed.

Lemma sub_scalar_reduced (col : column) :
  forall os, sub_scalar col 10 = Ok os -> Forall2 reduced col os.
Proof.
  induction col as [|x col IH]; simpl; intros os H.
  - injection H as <-. constructor.
  - destruct x as [v | s]; [| discriminate].
    destruct (sub_scalar col 10) as [os' | e]; simpl in H; [| discriminate].
    injection H as <-. constructor; [now exists v | now apply IH].
Qed.

Lemma attr_Some (df : frame) (name : string) (c : column) :
  attr df name = Ok c -> get_column df name = Some c.
Proof. unfold attr. destruct (get_column df name); congruence. Qed.

Lemma onsets_for_rows (events : frame) (t : string) (os : list num) :
  onsets_for events t = Ok os ->
  exists trial_type onset,
    get_column events "trial_type" = Some trial_type
    /\ get_column events "onset" = Some onset
    /\ Forall2 reduced
         (map snd (filter (is_trial t) (rows trial_type onset))) os.
Proof.
  unfold onsets_for. intros H.
  destruct (attr events "trial_type") as [tt | e] eqn:Ht; simpl in H;
    [| discriminate].
  destruct (attr (filter_rows events (eq_str tt t)) "onset") as [sel | e] eqn:Ho;
    simpl in H; [| discriminate].
  apply attr_Some in Ht, Ho. rewrite get_column_filter_rows in Ho.
  destruct (get_column events "onset") as [on |] eqn:Hon; [| discriminate].
  simpl in Ho. injection Ho as <-. exists tt, on.
  rewrite <- select_rows. auto using sub_scalar_reduced.
Qed.

Lemma durations_for_rows (events : frame) (t : string) (ds : column) :
  durations_for events t = Ok ds ->
  exists trial_type duration,
    get_column events "trial_type" = Some trial_type
    /\ get_column events "duration" = Some duration
    /\ ds = map snd (filter (is_trial t) (rows trial_type duration)).
Proof.
  unfold durations_for. intros H.
  destruct (attr events "trial_type") as [tt | e] eqn:Ht; simpl in H;
    [| discriminate].
  apply attr_Some in Ht, H. rewrite get_column_filter_rows in H.
  destruct (get_column events "duration") as [du |] eqn:Hdu; [| discriminate].
  simpl in H. injection H as <-. exists tt, du.
  rewrite <- select_rows. auto.
Qed.

Lemma regressor_for_column (confounds : frame) (c : string) (reg : column) :
  regressor_for confounds c = Ok reg ->
  exists col, get_column confounds c = Some col
              /\ reg = skipn 4 (map nan_to_zero col).
Proof.
  unfold regressor_for, getitem. intros H.
  destruct (get_column confounds c) as [col |]; simpl in H; [| discriminate].
  injection H as <-. now exists col.
Qed.

(** What [make_info] builds is what the specification describes. *)
Lemma make_info_described (tasks cols : list string)
  (events confounds : frame) (b : Bunch) :
  tasks <> [] ->
  make_info tasks cols events confounds = Ok b ->
  info_described tasks cols events confounds b.
Proof.
  intros Hne H. unfold make_info in H.
  destruct (mapR (onsets_for events) tasks) as [ons | e] eqn:Hon;
    simpl in H; [| discriminate].
  destruct (mapR (durations_for events) tasks) as [durs | e] eqn:Hdu;
    simpl in H; [| discriminate].
  destruct (mapR (regressor_for confounds) cols) as [regs | e] eqn:Hre;
    simpl in H; [| discriminate].
  injection H as <-. unfold info_described. cbn.
  apply mapR_Forall2 in Hon, Hdu, Hre.
  split; [reflexivity |]. split; [reflexivity |]. split.
  - destruct tasks as [|t0 tasks]; [congruence |].
    inversion Hon as [|? os0 ? ? Ho0 _]; subst.
    inversion Hdu as [|? ds0 ? ? Hd0 _]; subst.
    destruct (onsets_for_rows _ _ Ho0) as (tt & on & Htt & Hcol & _).
    destruct (durations_for_rows _ _ Hd0) as (tt' & du & Htt' & Hdcol & _).
    exists tt, on, du. repeat split; try assumption.
    + eapply Forall2_impl; [| exact Hon]. intros t os Hos.
      destruct (onsets_for_rows _ _ Hos) as (tt2 & on2 & H1 & H2 & H3).
      congruence.
    + eapply Forall2_impl; [| exact Hdu]. intros t ds Hds.
      destruct (durations_for_rows _ _ Hds) as (tt2 & du2 & H1 & H2 & H3).
      congruence.
  - eapply Forall2_impl; [| exact Hre]. intros c reg.
    apply regressor_for_column.
Qed.

End FrameFacts.

(** ** The handler monad *)

Section MonadFacts.
Context {N : Numbers} {Layout Image : Type}.
Variable W : World Layout Image.
Implicit Types P : @event N Image -> Prop.

Lemma emits_ret {A} P (a : A) : emits (Layout := Layout) P (ret a).
Proof.
  intros s s' r H. injection H as <- <-. split; [reflexivity |].
  exists []. now rewrite app_nil_r.
Qed.

Lemma emits_throw {A} P (e : exn) : emits (Layout := Layout) (A := A) P (throw e).
Proof.
  intros s s' r H. injection H as <- <-. split; [reflexivity |].
  exists []. now rewrite app_nil_r.
Qed.

Lemma emits_lift {A} P (x : result A) : emits (Layout := Layout) P (lift x).
Proof.
  intros s s' r H. injection H as <- <-. split; [reflexivity |].
  exists []. now rewrite app_nil_r.
Qed.

Lemma emits_get_win P : emits (Layout := Layout) P get_win.
Proof.
  intros s s' r H. injection H as <- <-. split; [reflexivity |].
  exists []. now rewrite app_nil_r.
Qed.

Lemma emits_assign P (name value : string) :
  emits (Layout := Layout) P (assign name value).
Proof.
  intros s s' r H. injection H as <- <-. split; [reflexivity |].
  exists []. cbn. now rewrite app_nil_r.
Qed.

Lemma emits_local P (name : string) : emits (Layout := Layout) P (local name).
Proof.
  intros s s' r H. unfold local in H.
  destruct (lookup (vars s) name); injection H as <- <-;
    (split; [reflexivity | exists []; now rewrite app_nil_r]).
Qed.

Lemma emits_call {A} (P : event Image -> Prop) (ev : event Image)
  (answer : list (event Image) -> A) :
  P ev -> emits P (call W ev answer).
Proof.
  intros HP s s' r H. unfold call in H.
  destruct (raises W (calls s) ev); injection H as <- <-;
    (split; [reflexivity | exists [ev]; split; [reflexivity | now constructor]]).
Qed.

Lemma emits_bind {A B} P (m : M Layout Image A) (k : A -> M Layout Image B) :
  emits P m -> (forall a, emits P (k a)) -> emits P (bind m k).
Proof.
  intros Hm Hk s s' r H. unfold bind in H.
  destruct (m s) as [s1 [a | e]] eqn:Hms.
  - destruct (Hm _ _ _ Hms) as [Hw1 (evs1 & Hc1 & Hp1)].
    destruct (Hk a _ _ _ H) as [Hw2 (evs2 & Hc2 & Hp2)].
    split; [congruence |]. exists (evs1 ++ evs2).
    split; [rewrite Hc2, Hc1; now rewrite app_assoc | now apply Forall_app].
  - injection H as <- <-. exact (Hm _ _ _ Hms).
Qed.

Lemma emits_layout_get (P : event Image -> Prop) (q : query) :
  P (EvGet q) -> emits P (layout_get W q).
Proof.
  intros HP. unfold layout_get. apply emits_bind; [apply emits_get_win |].
  intros g. destruct (layout g); [now apply emits_call | apply emits_throw].
Qed.

(** Before the workflow runs, the [try] block looks files up, reads
    tables, makes the workflow and sets its inputs: nothing else. *)
Lemma emits_setup : emits setup_call (first_level_setup W).
Proof.
  unfold first_level_setup, create_feat_first_level_wf.
  repeat first
    [ apply emits_ret | apply emits_lift | apply emits_get_win
    | apply emits_assign
    | apply emits_layout_get; exact I
    | apply emits_call; (exact I || reflexivity)
    | apply emits_bind; [| intros ?] ].
Qed.

(** *** Following a computation that returns *)

Lemma bind_ok {A B} (m : M Layout Image A) (k : A -> M Layout Image B)
  (s s' : state Layout Image) (b : B) :
  bind m k s = (s', Ok b) ->
  exists s1 a, m s = (s1, Ok a) /\ k a s1 = (s', Ok b).
Proof.
  unfold bind. destruct (m s) as [s1 [a | e]]; [| discriminate].
  intros H. now exists s1, a.
Qed.

Lemma get_win_ok (s s' : state Layout Image) (g : gui Layout) :
  get_win s = (s', Ok g) -> s' = s /\ g = win s.
Proof. intros H. injection H as <- <-. auto. Qed.

Lemma lift_ok {A} (x : result A) (s s' : state Layout Image) (a : A) :
  lift x s = (s', Ok a) -> s' = s /\ x = Ok a.
Proof. intros H. injection H as <- ->. auto. Qed.

Lemma ret_ok {A} (x a : A) (s s' : state Layout Image) :
  ret x s = (s', Ok a) -> s' = s /\ a = x.
Proof. intros H. injection H as <- <-. auto. Qed.

Lemma assign_ok (name value : string) (s s' : state Layout Image) (u : unit) :
  assign name value s = (s', Ok u) ->
  win s' = win s /\ calls s' = calls s.
Proof. intros H. injection H as <-. auto. Qed.

Lemma call_ok {A} (ev : event Image) (answer : list (event Image) -> A)
  (s s' : state Layout Image) (a : A) :
  call W ev answer s = (s', Ok a) ->
  win s' = win s /\ calls s' = calls s ++ [ev]
  /\ raises W (calls s) ev = None /\ a = answer (calls s).
Proof.
  unfold call. destruct (raises W (calls s) ev); [discriminate |].
  intros H. injection H as <- <-. auto.
Qed.

Lemma layout_get_ok (q : query) (s s' : state Layout Image)
  (found : list string) :
  layout_get W q s = (s', Ok found) ->
  win s' = win s /\ calls s' = calls s ++ [EvGet q].
Proof.
  unfold layout_get, bind, get_win.
  destruct (layout (win s)); [| discriminate].
  intros H. apply call_ok in H. tauto.
Qed.

End MonadFacts.

(** ** The first-level run *)

Section RunFacts.
Context {N : Numbers} {Layout Image : Type}.
Variable W : World Layout Image.
Import Py PyFacts.

Ltac ok_step H :=
  let s1 := fresh "s" in
  let a := fresh "a" in
  let Hm := fresh "Hm" in
  apply bind_ok in H; destruct H as (s1 & a & Hm & H);
  first
    [ apply get_win_ok in Hm; destruct Hm as [-> ->]
    | apply lift_ok in Hm; destruct Hm as [-> Hm]
    | apply assign_ok in Hm; destruct Hm as [? ?]
    | apply layout_get_ok in Hm; destruct Hm as [? ?]
    | apply call_ok in Hm; destruct Hm as (? & ? & ? & ?) ].

Lemma was_read_app (tr more : list (event Image)) (df : frame) :
  was_read W tr df -> was_read W (tr ++ more) df.
Proof.
  intros (before & path & after & -> & ->).
  exists before, path, (after ++ more). split; [| reflexivity].
  now rewrite <- app_assoc.
Qed.

Lemma setup_ok (s s' : state Layout Image) (wf : workflow) :
  first_level_setup W s = (s', Ok wf) ->
  wf_name wf = "Feat1stLevel"
  /\ wf_base_dir wf = Some (output_dir (win s))
  /\ exists evs cs events confounds b,
      calls s' = calls s ++ evs
      /\ wf_contrasts wf = Some cs
      /\ parse_contrasts (txt_contrasts (win s)) = Ok cs
      /\ wf_subject_info wf = Some [b]
      /\ make_info (tasks_of (win s)) (confound_cols (win s)) events confounds
         = Ok b
      /\ was_read W (calls s ++ evs) events
      /\ was_read W (calls s ++ evs) confounds.
Proof.
  intros H. unfold first_level_setup, create_feat_first_level_wf in H.
  repeat ok_step H.
  apply ret_ok in H. destruct H as [-> ->].
  cbn [win vars calls] in *. subst.
  split; [reflexivity |]. split; [reflexivity |].
  repeat match goal with
         | Hc : calls ?x = _ |- _ => rewrite Hc in *; clear Hc
         end.
  do 5 eexists.
  split; [rewrite <- !app_assoc; cbn [app]; reflexivity |].
  split; [reflexivity |]. split; [eassumption |].
  split; [reflexivity |]. split; [eassumption |].
  split.
  - eexists; eexists; eexists. split; [| reflexivity].
    rewrite <- !app_assoc. cbn [app]. reflexivity.
  - eexists; eexists; eexists. split; [| reflexivity].
    rewrite <- !app_assoc. cbn [app]. reflexivity.
Qed.

Lemma save_zstats_shape (out : string) (imgs : list Image) :
  forall i s s' r,
    save_zstats W out imgs i s = (s', r) ->
    exists pics k,
      calls s' = calls s ++ pics
      /\ Forall picture_call pics
      /\ k <= length imgs
      /\ saved pics = map (zstat_path out) (seq i k)
      /\ ((forall h ev, picture_call ev -> raises W h ev = None) ->
          k = length imgs /\ smooths pics = imgs).
Proof.
  induction imgs as [|t_map imgs IH]; intros i s s' r H.
  - injection H as <- <-. exists [], 0. rewrite app_nil_r.
    split; [reflexivity |]. split; [constructor |].
    split; [reflexivity |]. split; [reflexivity |]. intros _. now split.
  - cbn [save_zstats] in H. unfold bind, call in H. cbn [win vars calls] in H.
    destruct (raises W (calls s) (EvSmooth t_map)) eqn:E1.
    { injection H as <- <-. exists [EvSmooth t_map], 0. cbn.
      split; [reflexivity |]. split; [repeat constructor |].
      split; [lia |]. split; [reflexivity |].
      intros Hno. rewrite Hno in E1 by exact I. discriminate. }
    cbn [win vars calls] in H.
    destruct (raises W (calls s ++ [EvSmooth t_map]) (EvPlot _)) eqn:E2.
    { injection H as <- <-. eexists [EvSmooth t_map; EvPlot _], 0. cbn.
      rewrite <- app_assoc. split; [reflexivity |]. split; [repeat constructor |].
      split; [lia |]. split; [reflexivity |].
      intros Hno. rewrite Hno in E2 by exact I. discriminate. }
    cbn [win vars calls] in H.
    destruct (raises W ((calls s ++ [EvSmooth t_map]) ++ [EvPlot _])
                     (EvSaveFig _)) eqn:E3.
    { injection H as <- <-.
      eexists [EvSmooth t_map; EvPlot _; EvSaveFig _], 1. cbn.
      rewrite <- !app_assoc. split; [reflexivity |]. split; [repeat constructor |].
      split; [lia |]. split; [reflexivity |].
      intros Hno. rewrite Hno in E3 by exact I. discriminate. }
    cbn [win vars calls] in H.
    destruct (raises W (((calls s ++ [EvSmooth t_map]) ++ [EvPlot _])
                          ++ [EvSaveFig _]) EvClose) eqn:E4.
    { injection H as <- <-.
      eexists [EvSmooth t_map; EvPlot _; EvSaveFig _; EvClose], 1. cbn.
      rewrite <- !app_assoc. split; [reflexivity |]. split; [repeat constructor |].
      split; [lia |]. split; [reflexivity |].
      intros Hno. rewrite Hno in E4 by exact I. discriminate. }
    apply IH in H. destruct H as (pics & k & Hc & Hp & Hk & Hs & Hall).
    cbn [calls] in Hc.
    eexists ([EvSmooth t_map; EvPlot _; EvSaveFig _; EvClose] ++ pics), (S k).
    split; [rewrite Hc; rewrite <- !app_assoc; reflexivity |].
    split; [repeat constructor; assumption |].
    split; [cbn; lia |].
    split; [cbn; now rewrite Hs |].
    intros Hno. destruct (Hall Hno) as [Hk' Hs'].
    split; [cbn; lia | cbn; now rewrite Hs'].
Qed.


Lemma run_calls (wf : workflow) (s s' : state Layout Image) (r : result unit) :
  first_level_run W wf s = (s', r) ->
  exists rest,
    calls s' = calls s ++ EvRun wf :: rest
    /\ run_shape W (output_dir (win s)) (calls s) wf rest.
Proof.
  intros H. unfold run_shape.
  unfold first_level_run, bind, log, set_win, call, get_win, lift in H.
  cbn [win vars calls output_dir with_status] in H.
  destruct (raises W (calls s) (EvRun wf)) eqn:E1.
  { injection H as <- <-. exists []. auto. }
  cbn [win vars calls output_dir with_status] in H.
  destruct (raises W (calls s ++ [EvRun wf]) (EvGzipOpen _)) eqn:E2.
  { injection H as <- <-. eexists. cbn [calls].
    rewrite <- app_assoc. split; reflexivity. }
  cbn [win vars calls output_dir with_status] in H.
  destruct (raises W ((calls s ++ [EvRun wf]) ++ [EvGzipOpen _])
                   (EvPickleLoad _)) eqn:E3.
  { injection H as <- <-. eexists. cbn [calls].
    rewrite <- !app_assoc. split; reflexivity. }
  cbn [win vars calls output_dir with_status] in H.
  destruct (Py.index0 (zstats_of W _ _)) as [imgs | e] eqn:E4.
  2:{ injection H as <- <-. eexists. cbn [calls].
      rewrite <- !app_assoc. split; reflexivity. }
  destruct (save_zstats W _ imgs 0 _) as [s5 [u | e]] eqn:E5;
    apply save_zstats_shape in E5;
    destruct E5 as (pics & k & Hc & Hp & Hk & Hs & Hall);
    cbn [calls] in Hc; injection H as <- <-; cbn [calls];
    (exists (EvGzipOpen (result_path (output_dir (win s)))
             :: EvPickleLoad (result_path (output_dir (win s))) :: pics);
     split; [rewrite Hc; rewrite <- !app_assoc; reflexivity |];
     exists pics; split; [reflexivity |];
     split; [assumption | exists k; auto]).
Qed.

Lemma except_calls (e : exn) (s s' : state Layout Image) (r : result unit) :
  first_level_except e s = (s', r) -> calls s' = calls s.
Proof.
  unfold first_level_except, bind, get_win, log, set_win, ret, local.
  intros H.
  repeat match type of H with
         | context [if ?b then _ else _] => destruct b
         | context [match lookup ?d ?n with _ => _ end] => destruct (lookup d n)
         end;
    injection H as <- <-; reflexivity.
Qed.

Lemma click_trace (g g' : gui Layout) (tr : list (event Image))
  (r : result unit) :
  click (run_first_level W) g = (g', tr, r) ->
  tr = [EvWarning "Error" "Select BIDS and output folders!"]
  \/ Forall setup_call tr
  \/ exists evs wf rest,
      tr = evs ++ EvRun wf :: rest
      /\ Forall setup_call evs
      /\ setup_facts W g evs wf
      /\ run_shape W (output_dir g) evs wf rest.
Proof.
  unfold click, run_first_level, bind, get_win, enter.
  cbn [win vars calls]. intros H.
  destruct (String.eqb (bids_dir g) "" || String.eqb (output_dir g) "").
  { injection H as <- <- <-. now left. }
  unfold log, set_win, try_except, first_level_try, bind in H.
  cbn [win vars calls] in H. right.
  match type of H with
  | context [first_level_setup W ?s0] =>
      destruct (first_level_setup W s0) as [sa [wf | e]] eqn:Es
  end.
  - destruct (emits_setup _ _ Es) as [Hw (evs & Hc & Hp)].
    apply setup_ok in Es.
    destruct Es as (Hn & Hb & evs' & cs & events & confounds & b
                    & Hc' & Hcs & Hparse & Hinfo & Hmake & Hre & Hrc).
    cbn [win vars calls app] in *.
    assert (evs' = evs) by congruence. subst evs'.
    rewrite Hc in Hre, Hrc.
    assert (Hshape : forall sb rb, first_level_run W wf sa = (sb, rb) ->
              exists rest, calls sb = evs ++ EvRun wf :: rest
                           /\ run_shape W (output_dir g) evs wf rest).
    { intros sb rb Er. apply run_calls in Er. destruct Er as (rest & Hcb & Hsh).
      exists rest. rewrite Hc in Hcb, Hsh. rewrite Hw in Hsh.
      split; [exact Hcb | exact Hsh]. }
    assert (Hfacts : setup_facts W g evs wf).
    { split; [exact Hn |]. split; [exact Hb |].
      exists cs, events, confounds, b.
      split; [exact Hcs |]. split; [exact Hparse |]. split; [exact Hinfo |].
      split; [exact Hmake |]. split; [exact Hre | exact Hrc]. }
    destruct (first_level_run W wf sa) as [sb [u | e]] eqn:Er.
    + destruct (Hshape _ _ eq_refl) as (rest & Hcb & Hsh).
      injection H as <- <- <-. right. exists evs, wf, rest. auto.
    + destruct (Hshape _ _ eq_refl) as (rest & Hcb & Hsh).
      destruct (first_level_except e sb) as [sc rc] eqn:Eh.
      apply except_calls in Eh.
      injection H as <- <- <-. right. exists evs, wf, rest.
      rewrite Eh. auto.
  - destruct (emits_setup _ _ Es) as [Hw (evs & Hc & Hp)].
    cbn [win vars calls app] in *.
    destruct (first_level_except e sa) as [sc rc] eqn:Eh.
    apply except_calls in Eh.
    injection H as <- <- <-. left. congruence.
Qed.

Lemma split_unique {A} (Q : A -> Prop) (l1 l2 l1' l2' : list A) (x x' : A) :
  Forall (fun y => ~ Q y) l1 -> Forall (fun y => ~ Q y) l2 -> Q x' ->
  l1 ++ x :: l2 = l1' ++ x' :: l2' ->
  l1' = l1 /\ x' = x /\ l2' = l2.
Proof.
  intros H1 H2 Hx. revert l1'.
  induction H1 as [|a l1 Ha H1 IH]; intros l1' Heq.
  - destruct l1' as [|b l1']; cbn in Heq.
    + injection Heq as -> ->. auto.
    + injection Heq as -> ->. exfalso.
      rewrite Forall_forall in H2. apply (H2 x'); [| exact Hx].
      apply in_or_app. right. now left.
  - destruct l1' as [|b l1']; cbn in Heq.
    + injection Heq as -> _. contradiction.
    + injection Heq as -> Heq. destruct (IH _ Heq) as (-> & -> & ->). auto.
Qed.

Lemma setup_call_other (evs : list (event Image)) :
  Forall setup_call evs ->
  Forall (fun ev => ~ is_run ev) evs /\ Forall (fun ev => ~ is_load ev) evs
  /\ saved evs = [] /\ smooths evs = []
  /\ forall q, ~ In (EvGzipOpen q) evs /\ ~ In (EvPickleLoad q) evs.
Proof.
  induction 1 as [|ev evs Hev _ (IH1 & IH2 & IH3 & IH4 & IH5)].
  - repeat split; auto.
  - destruct ev; cbn in Hev; try contradiction;
      (split; [constructor; [cbn; tauto | exact IH1] |];
       split; [constructor; [cbn; tauto | exact IH2] |];
       split; [exact IH3 |]; split; [exact IH4 |];
       intros pth; destruct (IH5 pth) as [Ha Hb];
       split; intros [Hq | Hq]; try discriminate; tauto).
Qed.

Lemma picture_call_other (evs : list (event Image)) :
  Forall picture_call evs ->
  Forall (fun ev => ~ is_run ev) evs /\ Forall (fun ev => ~ is_load ev) evs
  /\ forall q, ~ In (EvGzipOpen q) evs /\ ~ In (EvPickleLoad q) evs.
Proof.
  induction 1 as [|ev evs Hev _ (IH1 & IH2 & IH5)].
  - repeat split; auto.
  - destruct ev; cbn in Hev; try contradiction;
      (split; [constructor; [cbn; tauto | exact IH1] |];
       split; [constructor; [cbn; tauto | exact IH2] |];
       intros pth; destruct (IH5 pth) as [Ha Hb];
       split; intros [Hq | Hq]; try discriminate; tauto).
Qed.

Lemma saved_app (a b : list (event Image)) : saved (a ++ b) = saved a ++ saved b.
Proof.
  induction a as [|ev a IH]; [reflexivity |].
  destruct ev; cbn; now rewrite ?IH.
Qed.

Lemma smooths_app (a b : list (event Image)) :
  smooths (a ++ b) = smooths a ++ smooths b.
Proof.
  induction a as [|ev a IH]; [reflexivity |].
  destruct ev; cbn; now rewrite ?IH.
Qed.

(** After the run: only the two loads from the one path, then pictures. *)
Lemma run_shape_calls (out : string) (h : list (event Image)) (wf : workflow)
  (rest : list (event Image)) :
  run_shape W out h wf rest ->
  Forall (result_call out) rest /\ Forall (fun ev => ~ is_run ev) rest.
Proof.
  unfold run_shape.
  destruct (raises W h (EvRun wf)); [intros ->; split; constructor |].
  destruct (raises W (h ++ [EvRun wf]) _);
    [intros ->; split; repeat constructor; cbn; tauto |].
  destruct (raises W ((h ++ [EvRun wf]) ++ _) _);
    [intros ->; split; repeat constructor; cbn; tauto |].
  destruct (Py.index0 _) as [imgs | e];
    [| intros ->; split; repeat constructor; cbn; tauto].
  intros (pics & -> & Hp & _).
  pose proof Hp as Hr. apply picture_call_other in Hr.
  destruct Hr as (Hr & _ & _).
  split.
  - constructor; [reflexivity |]. constructor; [reflexivity |].
    eapply Forall_impl; [| exact Hp]. intros ev. destruct ev; cbn; tauto.
  - constructor; [cbn; tauto |]. constructor; [cbn; tauto | exact Hr].
Qed.

Lemma tasks_of_nonempty (g : gui Layout) : tasks_of g <> [].
Proof.
  unfold tasks_of. destruct (split_cons "," (txt_tasks g)) as (w & ws & ->).
  discriminate.
Qed.

Lemma no_run_in (tr : list (event Image)) (wf : workflow) :
  Forall (fun ev => ~ is_run ev) tr -> ~ In (EvRun wf) tr.
Proof.
  intros H Hin. rewrite Forall_forall in H. now apply (H _ Hin).
Qed.

(** C5: the results are opened and unpickled from the one path
    [output_dir + "/Feat1stLevel/modelestimate/result_modelestimate.pklz"],
    "Feat1stLevel" being the name the workflow is made with, and that
    load is what follows a workflow run that returns. *)
Theorem results_loaded_from (g g' : gui Layout) (tr : list (event Image))
  (r : result unit) :
  click (run_first_level W) g = (g', tr, r) ->
  (forall q, In (EvGzipOpen q) tr \/ In (EvPickleLoad q) tr ->
             q = result_path (output_dir g))
  /\ (forall name, In (EvWorkflow name) tr ->
         name = "Feat1stLevel"
         /\ result_path (output_dir g)
            = (output_dir g ++ "/" ++ name
               ++ "/modelestimate/result_modelestimate.pklz")%string)
  /\ (forall before wf after,
         tr = before ++ EvRun wf :: after ->
         wf_name wf = "Feat1stLevel"
         /\ wf_base_dir wf = Some (output_dir g)
         /\ (raises W before (EvRun wf) = None ->
             exists after',
               after = EvGzipOpen (result_path (output_dir g)) :: after'
               /\ (raises W (before ++ [EvRun wf])
                          (EvGzipOpen (result_path (output_dir g))) = None ->
                   exists after'',
                     after' = EvPickleLoad (result_path (output_dir g))
                              :: after''))).
Proof.
  intros Hclick.
  destruct (@click_trace _ _ _ _ Hclick) as [-> | [Hs | (evs & wf0 & rest & -> & Hs & Hf & Hsh)]].
  - split; [| split].
    + intros q [[H | []] | [H | []]]; discriminate.
    + intros name [H | []]. discriminate.
    + intros [|ev before] wf after H; [discriminate |].
      injection H as _ H. destruct before; discriminate.
  - pose proof Hs as Hnr. apply setup_call_other in Hnr.
    destruct Hnr as (Hnr & _ & _ & _ & Hq).
    split; [| split].
    + intros q [H | H]; now apply Hq in H.
    + intros name H. rewrite Forall_forall in Hs. apply Hs in H.
      cbn in H. subst name. split; reflexivity.
    + intros before wf after ->. exfalso.
      apply (@no_run_in (before ++ EvRun wf :: after) wf Hnr).
      apply in_or_app. right. now left.
  - pose proof Hs as Hnr. apply setup_call_other in Hnr.
    destruct Hnr as (Hnr & _ & _ & _ & Hq).
    pose proof Hsh as Hnr'. apply run_shape_calls in Hnr'.
    destruct Hnr' as (Hrc & Hnr').
    split; [| split].
    + intros q H.
      assert (Hin : In (EvGzipOpen q) rest \/ In (EvPickleLoad q) rest).
      { destruct H as [H | H]; apply in_app_or in H;
          destruct H as [H | [H | H]];
          try (now apply Hq in H); try discriminate; auto. }
      rewrite Forall_forall in Hrc.
      destruct Hin as [Hin | Hin]; apply Hrc in Hin; exact Hin.
    + intros name H. apply in_app_or in H.
      destruct H as [H | [H | H]]; [| discriminate |].
      * rewrite Forall_forall in Hs. apply Hs in H.
        cbn in H. subst name. split; reflexivity.
      * rewrite Forall_forall in Hrc. apply Hrc in H. contradiction.
    + intros before wf after Heq.
      apply split_unique with (Q := is_run) in Heq; try assumption; [| exact I].
      destruct Heq as (-> & Hwf & ->). injection Hwf as ->.
      destruct Hf as (Hn & Hb & _).
      split; [exact Hn |]. split; [exact Hb |].
      intros Hrun. unfold run_shape in Hsh. rewrite Hrun in Hsh.
      destruct (raises W (evs ++ [EvRun wf0]) _) eqn:Hgz.
      * subst rest. eexists. split; [reflexivity |]. discriminate.
      * destruct (raises W ((evs ++ [EvRun wf0]) ++ _) _).
        { subst rest. eexists. split; [reflexivity |].
          intros _. eexists. reflexivity. }
        destruct (Py.index0 _).
        { destruct Hsh as (pics & -> & _). eexists. split; [reflexivity |].
          intros _. eexists. reflexivity. }
        subst rest. eexists. split; [reflexivity |].
        intros _. eexists. reflexivity.
Qed.

Lemma no_load_in (tr : list (event Image)) (q : string) :
  Forall (fun ev => ~ is_load ev) tr -> ~ In (EvPickleLoad q) tr.
Proof.
  intros H Hin. rewrite Forall_forall in H. now apply (H _ Hin).
Qed.

Lemma in_middle {A} (before after : list A) (x : A) :
  In x (before ++ x :: after).
Proof. apply in_or_app. right. now left. Qed.

(** C6: the pictures saved are [zstat_0.png], [zstat_1.png], ... in
    the output folder, in this order; when the results were loaded
    and no picture call raises, there is one for every image of the
    first zstat list, in the order of that list. *)
Theorem zstat_pictures (g g' : gui Layout) (tr : list (event Image))
  (r : result unit) :
  click (run_first_level W) g = (g', tr, r) ->
  exists k,
    saved tr = map (zstat_path (output_dir g)) (seq 0 k)
    /\ forall before after imgs,
        tr = before ++ EvPickleLoad (result_path (output_dir g)) :: after ->
        raises W before (EvPickleLoad (result_path (output_dir g))) = None ->
        Py.index0 (zstats_of W before (result_path (output_dir g))) = Ok imgs ->
        k <= length imgs
        /\ ((forall h ev, picture_call ev -> raises W h ev = None) ->
            k = length imgs /\ smooths tr = imgs).
Proof.
  intros Hclick. set (p := result_path (output_dir g)).
  destruct (@click_trace _ _ _ _ Hclick)
    as [-> | [Hs | (evs & wf & rest & -> & Hs & Hf & Hsh)]].
  - exists 0. split; [reflexivity |].
    intros [|ev before] after imgs H; [discriminate |].
    injection H as _ H. destruct before; discriminate.
  - pose proof Hs as Ho. apply setup_call_other in Ho.
    destruct Ho as (_ & Hnl & Hsv & _).
    exists 0. split; [exact Hsv |].
    intros before after imgs ->. exfalso.
    apply (@no_load_in _ p Hnl). apply in_middle.
  - pose proof Hs as Ho. apply setup_call_other in Ho.
    destruct Ho as (_ & Hnl & Hsv & Hsm & _).
    assert (Hnl3 : Forall (fun ev => ~ is_load ev)
                          ((evs ++ [EvRun wf]) ++ [EvGzipOpen p])).
    { apply Forall_app. split; [apply Forall_app; split |];
        [exact Hnl | |]; repeat constructor; cbn; tauto. }
    assert (Hnone : forall tail,
              Forall (fun ev => ~ is_load ev) tail ->
              saved (evs ++ EvRun wf :: tail) = saved tail ->
              saved tail = [] ->
              exists k,
                saved (evs ++ EvRun wf :: tail)
                = map (zstat_path (output_dir g)) (seq 0 k)
                /\ forall before after imgs,
                    evs ++ EvRun wf :: tail = before ++ EvPickleLoad p :: after ->
                    raises W before (EvPickleLoad p) = None ->
                    Py.index0 (zstats_of W before p) = Ok imgs ->
                    k <= length imgs
                    /\ ((forall h ev, picture_call ev -> raises W h ev = None) ->
                        k = length imgs /\ smooths (evs ++ EvRun wf :: tail) = imgs)).
    { intros tail Ht Hsave Hnil. exists 0.
      split; [rewrite Hsave, Hnil; reflexivity |].
      intros before after imgs Heq. exfalso.
      apply (@no_load_in (evs ++ EvRun wf :: tail) p).
      - apply Forall_app. split; [exact Hnl |].
        constructor; [cbn; tauto | exact Ht].
      - rewrite Heq. apply in_middle. }
    assert (Hsaved : forall tail, saved (evs ++ EvRun wf :: tail) = saved tail).
    { intros tail. rewrite saved_app, Hsv. reflexivity. }
    unfold run_shape in Hsh. fold p in Hsh.
    destruct (raises W evs (EvRun wf)).
    { subst rest. apply Hnone; [constructor | apply Hsaved | reflexivity]. }
    destruct (raises W (evs ++ [EvRun wf]) (EvGzipOpen p)).
    { subst rest. apply Hnone; [| apply Hsaved | reflexivity].
      repeat constructor. cbn. tauto. }
    assert (Hsplit : forall tail before after,
              evs ++ EvRun wf :: EvGzipOpen p :: EvPickleLoad p :: tail
              = before ++ EvPickleLoad p :: after ->
              Forall (fun ev => ~ is_load ev) tail ->
              before = (evs ++ [EvRun wf]) ++ [EvGzipOpen p] /\ after = tail).
    { intros tail before after Heq Ht.
      replace (evs ++ EvRun wf :: EvGzipOpen p :: EvPickleLoad p :: tail)
        with (((evs ++ [EvRun wf]) ++ [EvGzipOpen p]) ++ EvPickleLoad p :: tail)
        in Heq by (rewrite <- !app_assoc; reflexivity).
      apply split_unique with (Q := is_load) in Heq;
        [tauto | exact Hnl3 | exact Ht | exact I]. }
    destruct (raises W ((evs ++ [EvRun wf]) ++ [EvGzipOpen p]) (EvPickleLoad p))
      eqn:Hpk.
    { subst rest. exists 0. split; [rewrite Hsaved; reflexivity |].
      intros before after imgs Heq Hr _. apply Hsplit in Heq; [| constructor].
      destruct Heq as [-> _]. congruence. }
    destruct (Py.index0 (zstats_of W ((evs ++ [EvRun wf]) ++ [EvGzipOpen p]) p))
      as [imgs0 | e] eqn:Hz.
    2:{ subst rest. exists 0. split; [rewrite Hsaved; reflexivity |].
        intros before after imgs Heq _ Hi. apply Hsplit in Heq; [| constructor].
        destruct Heq as [-> _]. congruence. }
    destruct Hsh as (pics & -> & Hp & k & Hk & Hsave & Hall).
    pose proof Hp as Ho. apply picture_call_other in Ho.
    destruct Ho as (_ & Hnlp & _).
    exists k. split; [rewrite Hsaved; exact Hsave |].
    intros before after imgs Heq _ Hi. apply Hsplit in Heq; [| exact Hnlp].
    destruct Heq as [-> ->].
    assert (imgs = imgs0) by congruence. subst imgs0.
    split; [exact Hk |]. intros Hno. destruct (Hall Hno) as [Hk' Hs'].
    split; [exact Hk' |]. rewrite smooths_app, Hsm. exact Hs'.
Qed.

End RunFacts.

(** ** More on contrast parsing *)

Section ParsingFacts.
Context {N : Numbers}.
Import Py PyFacts.

Lemma parse_lines_app (lines : list string) :
  forall acc cs,
    parse_lines lines acc = Ok cs <->
    exists new,
      cs = acc ++ new
      /\ Forall2 (fun l c => parse_line l = Ok c) (filter nonblank lines) new.
Proof.
  induction lines as [|l lines IH]; intros acc cs.
  - simpl. split.
    + intros H. injection H as <-. exists []. rewrite app_nil_r. split; constructor.
    + intros (new & -> & H). inversion H. now rewrite app_nil_r.
  - simpl. unfold nonblank at 1.
    destruct (String.eqb (strip l) ""); cbn [negb].
    + apply IH.
    + destruct (parse_line l) as [c | e] eqn:Hl; simpl.
      * rewrite IH. split.
        -- intros (new & -> & H). exists (c :: new).
           rewrite <- app_assoc. split; [reflexivity | now constructor].
        -- intros (new & -> & H). inversion H as [|? c' ? new' Hc Hrest]; subst.
           exists new'. rewrite <- app_assoc.
           assert (c' = c) by congruence. subst c'. split; [reflexivity | exact Hrest].
      * split; [discriminate |].
        intros (new & _ & H). inversion H; subst. congruence.
Qed.

(** X1: the text parses when every line that is not blank parses on
    its own, and the contrasts are those of the lines, in the order of
    the lines. *)
Theorem parse_contrasts_by_line (text : string) (cs : list contrast) :
  parse_contrasts text = Ok cs <->
  Forall2 (fun l c => parse_line l = Ok c)
          (filter nonblank (split nl text)) cs.
Proof.
  unfold parse_contrasts. rewrite parse_lines_app. split.
  - intros (new & -> & H). exact H.
  - intros H. now exists cs.
Qed.

(** X2: a text of blank lines only, the empty text among them, gives
    no contrast and no error. *)
Theorem parse_contrasts_blank (text : string) :
  (forall line, In line (split nl text) -> strip line = "") ->
  parse_contrasts text = Ok [].
Proof.
  intros H. unfold parse_contrasts. apply parse_lines_app. exists [].
  split; [reflexivity |].
  replace (filter nonblank (split nl text)) with (@nil string); [constructor |].
  symmetry. induction (split nl text) as [|l ls IH]; [reflexivity |].
  simpl. unfold nonblank at 1. rewrite (H l) by now left. simpl.
  apply IH. intros line Hin. apply H. now right.
Qed.

Lemma mem_In (k : string) (l : list string) : mem k l = true <-> In k l.
Proof.
  unfold mem. rewrite existsb_exists. split.
  - intros (x & Hx & He). apply String.eqb_eq in He. now subst.
  - intros H. exists k. split; [exact H | apply String.eqb_refl].
Qed.

Lemma keys_dict_set {V} (d : dict V) (k : string) (v : V) :
  keys (dict_set d k v) = if mem k (keys d) then keys d else keys d ++ [k].
Proof.
  induction d as [|[k' v'] d IH]; [reflexivity |].
  cbn [dict_set keys map fst mem existsb]. fold (keys d). fold (mem k (keys d)).
  rewrite (String.eqb_sym k k').
  destruct (String.eqb k' k) eqn:E; cbn [orb].
  - reflexivity.
  - cbn [keys map fst]. fold (keys (dict_set d k v)). fold (keys d).
    rewrite IH. now destruct (mem k (keys d)).
Qed.

Lemma dict_get_set {V} (d : dict V) (k k' : string) (v : V) :
  dict_get (dict_set d k v) k'
  = if String.eqb k k' then Some v else dict_get d k'.
Proof.
  induction d as [|[k0 v0] d IH]; cbn [dict_set dict_get].
  - reflexivity.
  - destruct (String.eqb_spec k0 k) as [-> | Hne]; cbn [dict_get].
    + now destruct (String.eqb k k').
    + destruct (String.eqb_spec k0 k') as [-> | Hne'].
      * destruct (String.eqb_spec k k'); [congruence | reflexivity].
      * exact IH.
Qed.

(** Writing the pairs [kvs] into the dict [d], one after the other. *)
Lemma keys_fold_set {V} (kvs : list (string * V)) :
  forall d,
    keys (fold_left (fun d kv => dict_set d (fst kv) (snd kv)) kvs d)
    = keys d ++ first_seen (keys d) (map fst kvs).
Proof.
  induction kvs as [|[k v] kvs IH]; intros d; cbn [fold_left map first_seen fst snd].
  - now rewrite app_nil_r.
  - rewrite IH, keys_dict_set.
    destruct (mem k (keys d)); [reflexivity | now rewrite <- app_assoc].
Qed.

Lemma get_fold_set {V} (kvs : list (string * V)) (k : string) :
  forall d,
    dict_get (fold_left (fun d kv => dict_set d (fst kv) (snd kv)) kvs d) k
    = match last_of k kvs with
      | Some v => Some v
      | None => dict_get d k
      end.
Proof.
  induction kvs as [|[k0 v0] kvs IH]; intros d; cbn [fold_left last_of fst snd].
  - reflexivity.
  - rewrite IH, dict_get_set. cbn [fst snd].
    destruct (last_of k kvs); [reflexivity |].
    now destruct (String.eqb k0 k).
Qed.

Lemma NoDup_keys_set {V} (d : dict V) (k : string) (v : V) :
  NoDup (keys d) -> NoDup (keys (dict_set d k v)).
Proof.
  intros H. rewrite keys_dict_set. destruct (mem k (keys d)) eqn:E; [exact H |].
  apply NoDup_app; [exact H | constructor; [intros [] | constructor] |].
  intros x Hx [<- | []]. apply mem_In in Hx. congruence.
Qed.

Lemma get_under_fresh {V} (d : dict V) (k : string) (v : V)
  (ks : list string) (ws : list V) :
  ~ In k ks ->
  Forall2 (fun k0 w => dict_get d k0 = Some w) ks ws ->
  Forall2 (fun k0 w => dict_get ((k, v) :: d) k0 = Some w) ks ws.
Proof.
  intros Hk Hall. induction Hall as [|k0 w ks ws H0 _ IH]; constructor.
  - cbn. destruct (String.eqb_spec k k0) as [-> | _]; [| exact H0].
    exfalso. apply Hk. now left.
  - apply IH. intros Hin. apply Hk. now right.
Qed.

Lemma values_get {V} (d : dict V) :
  NoDup (keys d) ->
  Forall2 (fun k w => dict_get d k = Some w) (keys d) (values d).
Proof.
  induction d as [|[k v] d IH]; intros H; cbn [keys values map fst snd].
  - constructor.
  - inversion H as [|? ? Hk Hd]; subst. constructor.
    + cbn. now rewrite String.eqb_refl.
    + apply get_under_fresh; [exact Hk | now apply IH].
Qed.

(** What the inner loop leaves in the dict. *)
Lemma parse_pairs_sound (pairs : list string) :
  forall acc d,
    parse_pairs pairs acc = Ok d ->
    (NoDup (keys acc) -> NoDup (keys d))
    /\ (pairs <> [] -> d <> []).
Proof.
  induction pairs as [|p pairs IH]; intros acc d H.
  - injection H as <-. split; [auto | congruence].
  - cbn [parse_pairs] in H.
    destruct (unpack2 (split "=" p)) as [[task weight] | e]; simpl in H;
      [| discriminate].
    destruct (py_float (strip weight)) as [w | e]; simpl in H; [| discriminate].
    destruct (IH _ _ H) as [Hnd Hne]. split.
    + intros Hacc. apply Hnd. now apply NoDup_keys_set.
    + intros _. destruct pairs as [|q pairs].
      * injection H as <-. destruct acc as [|[k0 v0] acc]; cbn; [discriminate |].
        destruct (String.eqb k0 (strip task)); discriminate.
      * apply Hne. discriminate.
Qed.

Lemma parse_line_sound (line : string) (c : contrast) :
  parse_line line = Ok c -> sound_contrast c.
Proof.
  unfold parse_line. intros H.
  destruct (unpack2 (split1 ":" line)) as [[name spec] | e]; simpl in H;
    [| discriminate].
  destruct (parse_pairs (split "," spec) []) as [d | e] eqn:Hd; simpl in H;
    [| discriminate].
  injection H as <-. apply parse_pairs_sound in Hd. destruct Hd as [Hnd Hne].
  unfold sound_contrast. cbn.
  split; [reflexivity |]. split; [| split].
  - destruct (split_cons "," spec) as (w & ws & Hs). rewrite Hs in Hne.
    destruct d; [exfalso; now apply Hne | discriminate].
  - apply Hnd. constructor.
  - unfold keys, values. now rewrite !length_map.
Qed.

(** X3: every contrast the parser returns has the type "T", at least
    one condition, no condition twice, and as many weights as
    conditions. *)
Theorem parse_contrasts_sound (text : string) (cs : list contrast) :
  parse_contrasts text = Ok cs -> Forall sound_contrast cs.
Proof.
  unfold parse_contrasts. intros H. apply parse_lines_app in H.
  destruct H as (new & -> & H). cbn.
  induction H as [|l c ls cs Hc _ IH]; constructor; [| exact IH].
  now apply parse_line_sound with l.
Qed.

Lemma parse_pairs_fold (pairs : list (string * string)) :
  forall (ws : list num) (acc : dict num),
    Forall (fun p => plain (fst p) /\ plain (snd p)) pairs ->
    Forall2 (fun p w => py_float (strip (snd p)) = Ok w) pairs ws ->
    parse_pairs (map pair_text pairs) acc
    = Ok (fold_left (fun d kv => dict_set d (fst kv) (snd kv))
                    (combine (map (fun p => strip (fst p)) pairs) ws) acc).
Proof.
  induction pairs as [|p pairs IH]; intros ws acc Hplain Hws.
  - inversion Hws; subst. reflexivity.
  - inversion Hws as [|? w ? ws' Hw Hws']; subst.
    inversion Hplain as [|? ? [[_ [Hc _]] [_ [Hv _]]] Hplain']; subst.
    cbn [map parse_pairs]. rewrite split_pair_text by assumption.
    cbn [unpack2 rbind]. rewrite Hw. cbn [rbind combine fold_left fst snd].
    now apply IH.
Qed.

(** One written line is one line, it is not blank, and its name ends
    at the first colon. *)
Lemma parse_contrasts_one_line (name : string) (pairs : list (string * string)) :
  ~ has_char ":" name -> ~ has_char nl name ->
  pairs <> [] ->
  Forall (fun p => plain (fst p) /\ plain (snd p)) pairs ->
  parse_contrasts (contrast_line name pairs)
  = rbind (parse_pairs (map pair_text pairs) [])
          (fun weights =>
             Ok [Contrast (strip name) "T" (keys weights) (values weights)]).
Proof.
  intros Hcolon Hnl Hne Hplain.
  set (spec := join "," (map pair_text pairs)).
  assert (Hspec_nl : ~ has_char nl spec).
  { apply has_char_join.
    - simpl. intros [H | []]. discriminate.
    - apply Forall_map. eapply Forall_impl; [| exact Hplain].
      intros p [[_ [_ Hc]] [_ [_ Hv]]].
      apply pair_text_no; [discriminate | assumption ..]. }
  unfold parse_contrasts.
  change (contrast_line name pairs) with (name ++ String ":" spec)%string.
  rewrite split_plain.
  2:{ rewrite has_char_app. simpl. intros [H | [H | H]];
      [tauto | discriminate | tauto]. }
  cbn [parse_lines].
  destruct (String.eqb_spec (strip (name ++ String ":" spec)) "") as [Hb | _].
  { exfalso. revert Hb. apply strip_nonblank with (c := ":"%char); [reflexivity |].
    rewrite has_char_app. right. now left. }
  unfold parse_line. rewrite split1_app by assumption. cbn [unpack2 rbind].
  unfold spec. rewrite split_join.
  - destruct (parse_pairs (map pair_text pairs) []); reflexivity.
  - destruct pairs; [congruence | discriminate].
  - apply Forall_map. eapply Forall_impl; [| exact Hplain].
    intros p [[Hc _] [Hv _]]. apply pair_text_no; [discriminate | assumption ..].
Qed.

(** Conditions written more than once collapse as the keys of a [dict]
    do. *)
Lemma parse_contrasts_collapses (name : string)
  (pairs : list (string * string)) (ws : list num) :
  ~ has_char ":" name -> ~ has_char nl name ->
  pairs <> [] ->
  Forall (fun p => plain (fst p) /\ plain (snd p)) pairs ->
  Forall2 (fun p w => py_float (strip (snd p)) = Ok w) pairs ws ->
  exists kept,
    parse_contrasts (contrast_line name pairs)
    = Ok [Contrast (strip name) "T"
            (first_seen [] (map (fun p => strip (fst p)) pairs)) kept]
    /\ Forall2
         (fun k w =>
            last_of k (combine (map (fun p => strip (fst p)) pairs) ws)
            = Some w)
         (first_seen [] (map (fun p => strip (fst p)) pairs)) kept.
Proof.
  intros Hcolon Hnl Hne Hplain Hws.
  set (names := map (fun p => strip (fst p)) pairs).
  set (d := fold_left (fun d kv => dict_set d (fst kv) (snd kv))
                      (combine names ws) (@nil (string * num))).
  assert (Hlen : length names = length ws).
  { unfold names. rewrite length_map. eapply Forall2_length; eassumption. }
  assert (Hkeys : keys d = first_seen [] names).
  { unfold d. rewrite keys_fold_set. cbn [keys map app].
    f_equal. clear -Hlen. revert ws Hlen.
    induction names as [|k ks IH]; intros [|w ws] H; try discriminate;
      [reflexivity |].
    cbn. f_equal. apply IH. now injection H. }
  exists (values d). split.
  - rewrite parse_contrasts_one_line by assumption.
    rewrite parse_pairs_fold with (ws := ws) by assumption.
    cbn [rbind]. fold names. fold d. now rewrite Hkeys.
  - rewrite <- Hkeys.
    assert (Hnd : NoDup (keys d)).
    { unfold d. generalize (combine names ws) as kvs.
      assert (H0 : NoDup (keys (@nil (string * num)))) by constructor.
      revert H0. generalize (@nil (string * num)) as acc.
      intros acc H0 kvs. revert acc H0.
      induction kvs as [|kv kvs IH]; intros acc H0; [exact H0 |].
      cbn [fold_left]. apply IH. now apply NoDup_keys_set. }
    eapply Forall2_impl; [| apply values_get; exact Hnd].
    intros k w Hg. unfold d in Hg. rewrite get_fold_set in Hg.
    destruct (last_of k (combine names ws)); [exact Hg | discriminate].
Qed.

(** X4: when conditions are written more than once, each condition
    appears once, in the order of first appearance, with the weight of
    the last pair that names it. *)
Theorem parse_contrasts_repeated (name : string)
  (pairs : list (string * string)) (ws : list num) :
  ~ has_char ":" name -> ~ has_char nl name ->
  pairs <> [] ->
  Forall (fun p => plain (fst p) /\ plain (snd p)) pairs ->
  Forall2 (fun p w => py_float (strip (snd p)) = Ok w) pairs ws ->
  exists kept,
    parse_contrasts (contrast_line name pairs)
    = Ok [Contrast (strip name) "T"
            (first_seen [] (map (fun p => strip (fst p)) pairs)) kept]
    /\ Forall2
         (fun k w =>
            last_of k (combine (map (fun p => strip (fst p)) pairs) ws)
            = Some w)
         (first_seen [] (map (fun p => strip (fst p)) pairs)) kept.
Proof. intros. now apply parse_contrasts_collapses. Qed.

(** C1: a line "<name>:<c1>=<w1>,<c2>=<w2>,..." whose name has no colon
    and no newline, whose conditions and weights hold none of the
    delimiters and whose weights are numbers parses to one record.
    When the conditions, once stripped, are pairwise distinct, it is
    [name stripped, "T", the stripped conditions, the weights], both
    lists in the written order of the pairs.  In every case a
    condition appears once, at the place of its first pair, and its
    weight is the one of the last pair that names it. *)
Theorem parse_contrasts_line (name : string) (pairs : list (string * string))
  (ws : list num) :
  ~ has_char ":" name -> ~ has_char nl name ->
  pairs <> [] ->
  Forall (fun p => plain (fst p) /\ plain (snd p)) pairs ->
  Forall2 (fun p w => py_float (strip (snd p)) = Ok w) pairs ws ->
  (NoDup (map (fun p => strip (fst p)) pairs) ->
   parse_contrasts (contrast_line name pairs)
   = Ok [spec_contrast name pairs ws])
  /\ exists kept,
      parse_contrasts (contrast_line name pairs)
      = Ok [Contrast (strip name) "T"
              (first_seen [] (map (fun p => strip (fst p)) pairs)) kept]
      /\ Forall2
           (fun k w =>
              last_of k (combine (map (fun p => strip (fst p)) pairs) ws)
              = Some w)
           (first_seen [] (map (fun p => strip (fst p)) pairs)) kept.
Proof.
  intros Hcolon Hnl Hne Hplain Hws. split.
  - intros Hnd. now apply parse_contrasts_distinct.
  - now apply parse_contrasts_collapses.
Qed.

Lemma count_char_none (c : ascii) (s : string) :
  count_char c s = 0 <-> ~ has_char c s.
Proof.
  induction s as [|a s IH]; cbn; [tauto |].
  destruct (Ascii.eqb_spec a c) as [-> | Hne]; cbn.
  - split; [discriminate | intros H; exfalso; apply H; now left].
  - rewrite IH. split; [intros H [H' | H']; [congruence | tauto] | tauto].
Qed.

Lemma count_char_app (c : ascii) (a b : string) :
  count_char c (a ++ b) = count_char c a + count_char c b.
Proof. induction a as [|x a IH]; cbn; [reflexivity | rewrite IH; lia]. Qed.

(** Cutting at a character gives one piece more than there are
    occurrences of it. *)
Lemma length_split (c : ascii) (s : string) :
  length (split c s) = S (count_char c s).
Proof.
  induction s as [|a s IH]; cbn; [reflexivity |].
  destruct (Ascii.eqb a c); cbn [length]; [now rewrite IH |].
  destruct (split c s) as [|w ws]; cbn in *; lia.
Qed.

(** Joining the pieces with the character gives the text back. *)
Lemma join_split (c : ascii) (s : string) :
  join (String c "") (split c s) = s.
Proof.
  induction s as [|a s IH]; [reflexivity |].
  cbn [split]. destruct (Ascii.eqb_spec a c) as [-> | Hne].
  - destruct (split_cons c s) as (w & ws & Hs). rewrite Hs in *.
    change (join (String c "") ("" :: w :: ws))
      with (String c (join (String c "") (w :: ws))).
    now rewrite IH.
  - destruct (split_cons c s) as (w & ws & Hs). rewrite Hs in *.
    destruct ws as [|w' ws].
    + cbn in *. now rewrite IH.
    + change (join (String c "") (String a w :: w' :: ws))
        with (String a (join (String c "") (w :: w' :: ws))).
      now rewrite IH.
Qed.

Lemma split1_cases (c : ascii) (s : string) :
  (~ has_char c s /\ split1 c s = [s])
  \/ (exists a b, s = (a ++ String c b)%string /\ ~ has_char c a
                  /\ split1 c s = [a; b]).
Proof.
  induction s as [|x s IH].
  - left. cbn. tauto.
  - cbn [split1]. destruct (Ascii.eqb_spec x c) as [-> | Hne].
    + right. exists "", s. cbn. tauto.
    + destruct IH as [[Hno Hs] | (a & b & -> & Ha & Hs)]; rewrite Hs.
      * left. split; [| reflexivity]. intros [H | H]; [congruence | tauto].
      * right. exists (String x a), b. split; [reflexivity |].
        split; [| reflexivity]. intros [H | H]; [congruence | tauto].
Qed.

(** Unpacking a pair works when it has exactly one equals sign. *)
Lemma unpack_pair (p : string) :
  match unpack2 (split "=" p) with
  | Ok (task, weight) =>
      count_char "=" p = 1 /\ p = (task ++ "=" ++ weight)%string
      /\ ~ has_char "=" task /\ ~ has_char "=" weight
  | Raise _ => count_char "=" p <> 1
  end.
Proof.
  pose proof (length_split "=" p) as Hlen.
  pose proof (join_split "=" p) as Hjoin.
  destruct (split "=" p) as [|a [|b [|c l]]] eqn:Hs; cbn in Hlen; cbn [unpack2].
  - lia.
  - lia.
  - assert (Hc : count_char "=" p = 1) by lia.
    split; [exact Hc |]. split; [now rewrite <- Hjoin |].
    rewrite <- Hjoin in Hc. cbn [join] in Hc.
    change (a ++ "=" ++ b)%string with (a ++ String "=" b)%string in Hc.
    rewrite count_char_app in Hc. cbn in Hc.
    rewrite <- !count_char_none. lia.
  - lia.
Qed.

Lemma bad_pair_unparsable (p : string) : bad_pair p <-> unparsable_pair p.
Proof.
  unfold bad_pair, unparsable_pair. pose proof (unpack_pair p) as H.
  destruct (unpack2 (split "=" p)) as [[task weight] | e].
  - destruct H as (Hc & Hp & Ht & Hw). split.
    + intros [e He]. right. now exists task, weight, e.
    + intros [Hn | (task' & weight' & e & Hp' & He)]; [congruence |].
      assert (task' = task /\ weight' = weight) as [-> ->].
      { assert (Hs : split "=" p = [task; weight]).
        { rewrite Hp. change (task ++ "=" ++ weight)%string
            with (task ++ String "=" weight)%string.
          now rewrite split_app, split_plain. }
        assert (Hc' : count_char "=" task' = 0 /\ count_char "=" weight' = 0).
        { rewrite Hp' in Hc.
          change (task' ++ "=" ++ weight')%string
            with (task' ++ String "=" weight')%string in Hc.
          rewrite count_char_app in Hc. cbn in Hc. lia. }
        destruct Hc' as [H1 H2]. apply count_char_none in H1, H2.
        rewrite Hp' in Hs.
        change (task' ++ "=" ++ weight')%string
          with (task' ++ String "=" weight')%string in Hs.
        rewrite split_app, split_plain in Hs by assumption.
        injection Hs as -> ->. auto. }
      now exists e.
  - split; [intros _; now left | trivial].
Qed.

Lemma parse_pairs_raises_inv (pairs : list string) :
  forall acc e, parse_pairs pairs acc = Raise e -> Exists bad_pair pairs.
Proof.
  induction pairs as [|p pairs IH]; intros acc e H; [discriminate |].
  cbn [parse_pairs] in H. unfold bad_pair at 1.
  destruct (unpack2 (split "=" p)) as [[task weight] | e0] eqn:Hu; simpl in H.
  - destruct (py_float (strip weight)) as [w | e1] eqn:Hw; simpl in H.
    + apply Exists_cons_tl. eapply IH. exact H.
    + apply Exists_cons_hd. unfold bad_pair. rewrite Hu. now exists e1.
  - apply Exists_cons_hd. unfold bad_pair. now rewrite Hu.
Qed.

Lemma parse_line_raises_iff (line : string) :
  (exists e, parse_line line = Raise e) <-> unparsable line.
Proof.
  unfold parse_line, unparsable.
  destruct (split1_cases ":" line) as [[Hno Hs] | (name & spec & -> & Hname & Hs)];
    rewrite Hs; cbn [unpack2 rbind].
  - split; [intros _; now left | eauto].
  - split.
    + intros [e He]. right.
      destruct (parse_pairs (split "," spec) []) as [d | e'] eqn:Hp;
        [discriminate |].
      apply parse_pairs_raises_inv in Hp. apply Exists_exists in Hp.
      destruct Hp as (p & Hin & Hbad). exists name, spec, p.
      split; [reflexivity |]. split; [exact Hname |]. split; [exact Hin |].
      now apply bad_pair_unparsable.
    + intros [Hno | (name' & spec' & p & Heq & Hname' & Hin & Hbad)].
      * exfalso. apply Hno. rewrite has_char_app. right. now left.
      * assert (Hs' : split1 ":" (name ++ String ":" spec) = [name'; spec']).
        { rewrite Heq. change (name' ++ ":" ++ spec')%string
            with (name' ++ String ":" spec')%string.
          now apply split1_app. }
        rewrite Hs in Hs'. injection Hs' as <- <-.
        destruct (@parse_pairs_raises N (split "," spec)) with (acc := @nil (string * num))
          as [e He].
        -- apply Exists_exists. exists p. split; [exact Hin |].
           now apply bad_pair_unparsable.
        -- rewrite He. cbn. eauto.
Qed.

(** X5: the parser raises exactly when some line that is not blank has
    no colon, or has after its first colon a pair with no or with
    several equals signs, or a pair whose weight is no number. *)
Theorem parse_contrasts_raises_iff (text : string) :
  (exists e, parse_contrasts text = Raise e) <->
  exists line,
    In line (split nl text) /\ strip line <> "" /\ unparsable line.
Proof.
  unfold parse_contrasts. generalize (@nil contrast) as acc.
  induction (split nl text) as [|l lines IH]; intros acc.
  - cbn. split; [intros [e H]; discriminate | intros (line & [] & _)].
  - cbn [parse_lines]. destruct (String.eqb_spec (strip l) "") as [Hb | Hnb].
    + rewrite IH. split.
      * intros (line & Hin & H). exists line. split; [now right | exact H].
      * intros (line & [<- | Hin] & Hnb & H); [contradiction |].
        now exists line.
    + destruct (parse_line l) as [c | e] eqn:Hl; cbn [rbind].
      * rewrite IH. split.
        -- intros (line & Hin & H). exists line. split; [now right | exact H].
        -- intros (line & [<- | Hin] & Hnb' & H); [| now exists line].
           apply parse_line_raises_iff in H. destruct H as [e He]. congruence.
      * split; [| eauto]. intros _. exists l.
        split; [now left |]. split; [exact Hnb |].
        apply parse_line_raises_iff. eauto.
Qed.

End ParsingFacts.

(** ** More on the window *)

Section WindowFacts.
Context {N : Numbers} {Layout Image : Type}.
Variable W : World Layout Image.
Import Py PyFacts.

Lemma occurs_refl (s : string) : occurs s s.
Proof. exists "", "". cbn. now rewrite append_nil_r. Qed.

Lemma contains_empty (x : string) : contains x "" = true <-> x = "".
Proof.
  rewrite contains_occurs. split.
  - intros (a & b & H). destruct a; [| discriminate].
    destruct x; [reflexivity | discriminate].
  - intros ->. apply occurs_refl.
Qed.

(** X7: the column selected in the combo box is always among the
    confound columns; with nothing selected, only columns with an
    empty name are. *)
Theorem selected_column_kept (g : gui Layout) :
  (forall i, combo_index g = Some i -> i < count g ->
             In (currentText g) (confound_cols g))
  /\ (combo_index g = None ->
      confound_cols g = filter (fun x => String.eqb x "") (combo_items g)).
Proof.
  rewrite confound_cols_filter. split.
  - intros i Hi Hlt. apply filter_In. split.
    + unfold currentText. rewrite Hi. unfold itemText. now apply nth_In.
    + apply contains_occurs, occurs_refl.
  - intros Hnone. unfold currentText. rewrite Hnone.
    apply filter_ext. intros x.
    destruct (String.eqb_spec x "") as [-> | Hne]; [reflexivity |].
    destruct (contains x "") eqn:E; [| reflexivity].
    apply contains_empty in E. contradiction.
Qed.

Lemma tasks_of_nonempty_cons (g : gui Layout) :
  exists t ts, map strip (split "," (txt_tasks g)) = t :: ts.
Proof.
  destruct (split_cons "," (txt_tasks g)) as (w & ws & ->).
  now exists (strip w), (map strip ws).
Qed.

(** X6: the task field gives one task more than it has commas, so
    there is always a first task, even for an empty field. *)
Theorem tasks_of_count (g : gui Layout) :
  length (tasks_of g) = S (count_char "," (txt_tasks g))
  /\ index0 (tasks_of g) = Ok (hd "" (tasks_of g)).
Proof.
  unfold tasks_of. rewrite length_map, length_split. split; [reflexivity |].
  destruct (split_cons "," (txt_tasks g)) as (w & ws & ->). reflexivity.
Qed.

(** X8: when the dialog returns a folder, the layout loads, a
    confounds file is found and its table is read, [choose_bids] leaves
    the folder and its last component in the window, the layout, the
    table's columns as the only items of the enabled combo box, the
    first of them selected, and two lines more in the log. *)
Theorem choose_bids_loads (g : gui Layout) (folder file : string)
  (rest : list string) :
  let h1 := [EvDirDialog "Choose BIDS Folder"] in
  let h2 := h1 ++ [EvBIDSLayout folder] in
  let q := confounds_query [".tsv"; ".csv"] in
  let h3 := h2 ++ [EvGet q] in
  picked W [] "Choose BIDS Folder" = folder -> folder <> "" ->
  raises W h1 (EvBIDSLayout folder) = None ->
  raises W h2 (EvGet q) = None ->
  files_of W h2 (layout_of W h1 folder) q = file :: rest ->
  raises W h3 (EvReadCsv file) = None ->
  click (choose_bids W) g
  = (loaded g folder (layout_of W h1 folder) (columns (frame_of W h3 file)),
     h3 ++ [EvReadCsv file], Ok tt).
Proof.
  intros h1 h2 q h3 Hp Hf Hr1 Hr2 Hfiles Hr3. apply String.eqb_neq in Hf.
  subst h1 h2 q h3. unfold confounds_query in *. cbn [app] in *.
  unfold click, choose_bids, bind, show, enter. cbn [win vars calls app].
  rewrite Hp, Hf.
  unfold set_win, try_except, bind, log, set_win, get_win, call, layout_get,
    bind, get_win, call, lift, assign.
  cbn [win vars calls app bids_dir with_bids with_status with_layout layout].
  rewrite Hr1. cbn [win vars calls app layout with_layout].
  rewrite Hr2. cbn [win vars calls app].
  rewrite Hfiles. cbn [index0 win vars calls app].
  rewrite Hr3. cbn [win vars calls app].
  destruct (columns (frame_of W _ file)); reflexivity.
Qed.

Lemma split_ends (c : ascii) (s name : string) :
  ~ has_char c name ->
  exists f fs, split c (s ++ String c name) = (f :: fs) ++ [name].
Proof.
  intros H. induction s as [|x s (f & fs & IH)]; cbn [append split].
  - rewrite Ascii.eqb_refl, split_plain by assumption. now exists "", [].
  - rewrite IH. destruct (Ascii.eqb x c).
    + now exists "", (f :: fs).
    + now exists (String x f), fs.
Qed.

Lemma basename_last (dir name : string) :
  ~ has_char "/" name -> basename (dir ++ "/" ++ name) = name.
Proof.
  intros H. unfold basename.
  change (dir ++ "/" ++ name)%string with (dir ++ String "/" name)%string.
  destruct (@split_ends "/" dir name H) as (f & fs & ->). apply last_last.
Qed.

(** X9: [choose_output] puts the folder picked and its last component
    into the window and changes nothing else; the BIDS folder, the
    layout, the combo box and the log stay as they are. *)
Theorem choose_output_sets (g : gui Layout) (dir name : string) :
  picked W [] "Choose Output Folder" = (dir ++ "/" ++ name)%string ->
  ~ has_char "/" name ->
  click (choose_output W) g
  = (with_output g (dir ++ "/" ++ name) name,
     [EvDirDialog "Choose Output Folder"], Ok tt).
Proof.
  intros Hp Hn. unfold click, choose_output, bind, show, enter.
  cbn [win vars calls app]. rewrite Hp.
  assert (Hne : String.eqb (dir ++ "/" ++ name) "" = false).
  { apply String.eqb_neq. destruct dir; discriminate. }
  rewrite Hne. unfold set_win. cbn [win vars calls].
  now rewrite basename_last.
Qed.

(** X10: a folder dialog that is cancelled changes nothing, for the
    BIDS folder and for the output folder. *)
Theorem cancelled_dialog_changes_nothing (g : gui Layout) :
  (picked W [] "Choose BIDS Folder" = "" ->
   click (choose_bids W) g = (g, [EvDirDialog "Choose BIDS Folder"], Ok tt))
  /\ (picked W [] "Choose Output Folder" = "" ->
      click (choose_output W) g
      = (g, [EvDirDialog "Choose Output Folder"], Ok tt)).
Proof.
  split; intros Hp;
    unfold click, choose_bids, choose_output, bind, show, enter;
    cbn [win vars calls app]; rewrite Hp; reflexivity.
Qed.

(** X11: with both folders chosen but no layout loaded, as after a
    [choose_bids] that failed, [run_first_level] makes no library call:
    the lookup fails on the missing layout and the [except] block finds
    [confounds_file] unbound. *)
Theorem run_without_layout (g : gui Layout) (cs : list contrast) :
  bids_dir g <> "" -> output_dir g <> "" -> layout g = None ->
  parse_contrasts (txt_contrasts g) = Ok cs ->
  click (run_first_level W) g
  = (with_status g
       (qappend (status g) "Step 2: Setting up first-level analysis..."),
     [], Raise (UnboundLocalError "confounds_file")).
Proof.
  intros Hb Ho Hl Hc. apply String.eqb_neq in Hb, Ho.
  unfold click, run_first_level, bind, get_win, enter. cbn [win vars calls].
  rewrite Hb, Ho. cbn [orb].
  unfold log, set_win, try_except, first_level_try, first_level_setup,
    bind, get_win, lift, layout_get, bind, get_win, throw.
  cbn [win vars calls txt_contrasts with_status layout].
  rewrite Hc. fold (tasks_of g).
  destruct (tasks_of_nonempty_cons g) as (t & ts & Ht).
  cbn [tasks_of] in *. unfold tasks_of in *. cbn [txt_tasks with_status].
  rewrite Ht. cbn [index0]. rewrite Hl.
  unfold first_level_except, bind, get_win, local.
  cbn [win vars calls status with_status lookup exn_str AttributeError].
  assert (H2 : contains "Step 2"
                 (qappend (status g)
                          "Step 2: Setting up first-level analysis...") = true).
  { apply contains_occurs.
    exact (occurs_qappend "Step 2" (status g)
             ": Setting up first-level analysis..."). }
  rewrite H2. reflexivity.
Qed.

Lemma with_status_same (g : gui Layout) : with_status g (status g) = g.
Proof. now destruct g. Qed.

Lemma appends_of_emits {A} (P : event Image -> Prop) (m : M Layout Image A) :
  emits P m -> appends_log m.
Proof.
  intros Hm s s' r H. destruct (Hm _ _ _ H) as [Hw _]. exists "".
  now rewrite Hw, append_nil_r, with_status_same.
Qed.

Lemma appends_log_log (message : string) :
  appends_log (log message : M Layout Image unit).
Proof.
  intros s s' r H. injection H as <- <-. cbn [win]. unfold qappend.
  destruct (String.eqb_spec (status (win s)) "") as [He | _].
  - exists message. now rewrite He.
  - now exists (NL ++ message)%string.
Qed.

Lemma appends_step (g1 g2 g3 : gui Layout) (m1 m2 : string) :
  g2 = with_status g1 (status g1 ++ m1) ->
  g3 = with_status g2 (status g2 ++ m2) ->
  g3 = with_status g1 (status g1 ++ (m1 ++ m2)).
Proof. intros -> ->. cbn. now rewrite append_assoc. Qed.

Lemma appends_bind {A B} (m : M Layout Image A) (k : A -> M Layout Image B) :
  appends_log m -> (forall a, appends_log (k a)) -> appends_log (bind m k).
Proof.
  intros Hm Hk s s' r H. unfold bind in H.
  destruct (m s) as [s1 [a | e]] eqn:Hms.
  - destruct (Hm _ _ _ Hms) as [m1 H1]. destruct (Hk a _ _ _ H) as [m2 H2].
    exists (m1 ++ m2)%string. eapply appends_step; eassumption.
  - injection H as <- <-. exact (Hm _ _ _ Hms).
Qed.

Lemma appends_try {A} (body : M Layout Image A)
  (handler : exn -> M Layout Image A) :
  appends_log body -> (forall e, appends_log (handler e)) ->
  appends_log (try_except body handler).
Proof.
  intros Hb Hh s s' r H. unfold try_except in H.
  destruct (body s) as [s1 [a | e]] eqn:Hbs.
  - injection H as <- <-. exact (Hb _ _ _ Hbs).
  - destruct (Hb _ _ _ Hbs) as [m1 H1]. destruct (Hh e _ _ _ H) as [m2 H2].
    exists (m1 ++ m2)%string. eapply appends_step; eassumption.
Qed.

Lemma emits_save_zstats (out : string) (imgs : list Image) :
  forall i, emits picture_call (save_zstats W out imgs i).
Proof.
  induction imgs as [|t_map imgs IH]; intros i; cbn [save_zstats].
  - apply emits_ret.
  - repeat first [ apply IH | apply emits_call; exact I
                 | apply emits_bind; [| intros ?] ].
Qed.

Lemma emits_show {A} (ev : event Image) (answer : list (event Image) -> A) :
  emits (Layout := Layout) (fun _ => True) (show ev answer).
Proof.
  intros s s' r H. injection H as <- <-. split; [reflexivity |].
  exists [ev]. split; [reflexivity | now constructor].
Qed.

Ltac quiet_steps :=
  repeat match goal with
    | |- appends_log (bind _ _) => apply appends_bind; [| intros ?]
    | |- appends_log (log _) => apply appends_log_log
    | |- appends_log (ret _) =>
        apply appends_of_emits with (P := fun _ => True); apply emits_ret
    | |- appends_log get_win =>
        apply appends_of_emits with (P := fun _ => True); apply emits_get_win
    | |- appends_log (lift _) =>
        apply appends_of_emits with (P := fun _ => True); apply emits_lift
    | |- appends_log (local _) =>
        apply appends_of_emits with (P := fun _ => True); apply emits_local
    | |- appends_log (show _ _) =>
        apply appends_of_emits with (P := fun _ => True); apply emits_show
    | |- appends_log (call _ _ _) =>
        apply appends_of_emits with (P := fun _ => True);
        apply emits_call; exact I
    | |- appends_log (first_level_setup _) =>
        apply appends_of_emits with (P := setup_call); apply emits_setup
    | |- appends_log (save_zstats _ _ _ _) =>
        apply appends_of_emits with (P := picture_call);
        apply emits_save_zstats
    end.

Lemma appends_try_block : appends_log (first_level_try W).
Proof. unfold first_level_try, first_level_run. quiet_steps. Qed.

Lemma appends_except (e : exn) :
  appends_log (first_level_except e : M Layout Image unit).
Proof.
  unfold first_level_except.
  apply appends_bind; [quiet_steps | intros g].
  apply appends_bind; [| intros sf; apply appends_log_log].
  destruct (contains "Step 2" (status g)).
  - apply appends_bind; [| intros f; quiet_steps].
    destruct (contains "bold" (exn_str e)); [quiet_steps |].
    destruct (contains "events" (exn_str e)); quiet_steps.
  - destruct (contains "Step 3" (status g)); [quiet_steps |].
    destruct (contains "Step 4" (status g)); quiet_steps.
Qed.

(** X12: whatever happens in it, a click on the first-level button
    changes nothing of the window but the log, and the log only by
    adding to its end. *)
Theorem run_first_level_only_logs (g g' : gui Layout)
  (tr : list (event Image)) (r : result unit) :
  click (run_first_level W) g = (g', tr, r) ->
  exists more, g' = with_status g (status g ++ more).
Proof.
  unfold click. destruct (run_first_level W (enter g)) as [s' r'] eqn:H.
  intros Heq. injection Heq as <- <- <-.
  assert (Hall : appends_log (run_first_level W)).
  { unfold run_first_level. apply appends_bind; [quiet_steps | intros g0].
    destruct (String.eqb (bids_dir g0) "" || String.eqb (output_dir g0) "").
    - quiet_steps.
    - apply appends_bind; [apply appends_log_log | intros _].
      apply appends_try; [apply appends_try_block | apply appends_except]. }
  exact (Hall _ _ _ H).
Qed.

Lemma occurs_more (needle text more : string) :
  occurs needle text -> occurs needle (text ++ more).
Proof.
  intros (a & b & ->). exists a, (b ++ more)%string.
  now rewrite !append_assoc.
Qed.

(** X13: whenever the [except] block of [run_first_level] writes its
    line, the step it names is "Setup Workflow", also when the workflow
    run or the saving of the results has failed: "Step 2" is in the log
    by then. *)
Theorem error_step_is_setup (g : gui Layout) (s1 s2 : state Layout Image)
  (e : exn) :
  first_level_try W (step2 g) = (s1, Raise e) ->
  first_level_except e s1 = (s2, Ok tt) ->
  exists file,
    status (win s2)
    = qappend (status (win s1))
        ("Error in Setup Workflow: " ++ exn_str e ++ " - File: " ++ file).
Proof.
  intros Htry Hex.
  assert (H2 : contains "Step 2" (status (win s1)) = true).
  { apply contains_occurs.
    destruct (appends_try_block _ Htry) as [more Hw]. rewrite Hw.
    cbn [status with_status]. apply occurs_more.
    unfold step2, enter. cbn [win status with_status].
    exact (occurs_qappend "Step 2" (status g)
             ": Setting up first-level analysis..."). }
  unfold first_level_except, bind, get_win, log, set_win, ret, local in Hex.
  rewrite H2 in Hex.
  destruct (contains "bold" (exn_str e)).
  - destruct (lookup (vars s1) "bold_file") as [f|]; [| discriminate].
    injection Hex as <-. now exists f.
  - destruct (contains "events" (exn_str e)).
    + destruct (lookup (vars s1) "events_file") as [f|]; [| discriminate].
      injection Hex as <-. now exists f.
    + destruct (lookup (vars s1) "confounds_file") as [f|]; [| discriminate].
      injection Hex as <-. now exists f.
Qed.

End WindowFacts.

(** ** What the workflow is given *)

Section InputFacts.
Context {N : Numbers} {Layout Image : Type}.
Variable W : World Layout Image.
Import Py PyFacts.

Lemma layout_get_found (q : query) (s s' : state Layout Image)
  (found : list string) :
  layout_get W q s = (s', Ok found) ->
  exists l,
    layout (win s) = Some l
    /\ found = files_of W (calls s) l q
    /\ win s' = win s /\ calls s' = calls s ++ [EvGet q].
Proof.
  unfold layout_get, bind, get_win.
  destruct (layout (win s)) as [l |]; [| discriminate].
  intros H. apply call_ok in H. destruct H as (Hw & Hc & _ & Hf).
  exists l. auto.
Qed.

Ltac follow H :=
  let s1 := fresh "s" in
  let a := fresh "a" in
  let Hm := fresh "Hm" in
  apply bind_ok in H; destruct H as (s1 & a & Hm & H);
  first
    [ apply get_win_ok in Hm; destruct Hm as [-> ->]
    | apply layout_get_found in Hm; destruct Hm as (? & ? & ? & ? & ?)
    | apply lift_ok in Hm; destruct Hm as [-> Hm]
    | apply call_ok in Hm; destruct Hm as (? & ? & ? & ?) ].

(** The workflow the [try] block builds, field by field, and the
    calls it has made by then. *)
Lemma setup_inputs (g : gui Layout) (s' : state Layout Image) (wf : workflow) :
  first_level_setup W (step2 g) = (s', Ok wf) ->
  exists l bold mask events_file confounds_file b,
    layout g = Some l
    /\ index0 (files_of W [] l (task_query g "bold" "nii.gz")) = Ok bold
    /\ index0 (files_of W [EvGet (task_query g "bold" "nii.gz")] l
                        (task_query g "brainmask" "nii.gz")) = Ok mask
    /\ events_file_of W g l = Ok events_file
    /\ confounds_file_of W g l = Ok confounds_file
    /\ make_info (tasks_of g) (confound_cols g)
                 (events_table W g events_file)
                 (confounds_table W g events_file confounds_file) = Ok b
    /\ wf_in_func wf = Some bold
    /\ wf_brain_mask wf = Some mask
    /\ wf_subject_info wf = Some [b]
    /\ calls s' = setup_calls g events_file confounds_file.
Proof.
  intros H. unfold first_level_setup, create_feat_first_level_wf in H.
  repeat follow H.
  apply ret_ok in H. destruct H as [-> ->].
  unfold step2, enter in *. cbn [win vars calls with_status layout
    txt_contrasts txt_tasks txt_session output_dir] in *.
  assert (Ht : forall t, index0 (tasks_of (with_status g
             (qappend (status g) "Step 2: Setting up first-level analysis...")))
             = Ok t -> t = hd "" (tasks_of g)).
  { unfold tasks_of. cbn [txt_tasks with_status].
    destruct (tasks_of_nonempty_cons g) as (t0 & ts & ->).
    intros t [= <-]. reflexivity. }
  apply Ht in Hm0, Hm3, Hm6. subst.
  repeat match goal with
         | E : win ?s = _ |- _ => is_var s; try rewrite E in *; clear E
         end.
  cbn [layout with_status] in *.
  repeat match goal with
         | E : layout g = Some ?y, E' : layout g = Some ?z |- _ =>
             first [ constr_eq y z; clear E'
                   | assert (z = y) by congruence; subst z ]
         end.
  exists x, a2, a6, a10, a13, a17.
  repeat match goal with
         | E : calls ?s = _ |- _ => is_var s; try rewrite E in *; clear E
         end.
  cbn [app] in *.
  unfold events_file_of, confounds_file_of, events_table, confounds_table,
    lookups, task_query, confounds_query, setup_calls.
  cbn [firstn app].
  repeat (split; [first [assumption | reflexivity] |]).
  reflexivity.
Qed.

Lemma run_follows_setup (g g' : gui Layout) (tr : list (event Image))
  (r : result unit) (wf : workflow) :
  click (run_first_level W) g = (g', tr, r) ->
  In (EvRun wf) tr ->
  exists s1 rest,
    first_level_setup W (step2 g) = (s1, Ok wf)
    /\ tr = calls s1 ++ EvRun wf :: rest.
Proof.
  unfold click, run_first_level, bind, get_win, enter.
  cbn [win vars calls]. intros H Hin.
  destruct (String.eqb (bids_dir g) "" || String.eqb (output_dir g) "").
  { injection H as <- <- <-. destruct Hin as [Hin | []]. discriminate. }
  unfold log, set_win, try_except, first_level_try, bind in H.
  cbn [win vars calls] in H.
  unfold step2, enter.
  match type of H with
  | context [first_level_setup W ?s0] =>
      destruct (first_level_setup W s0) as [sa [wf0 | e]] eqn:Es
  end.
  - exists sa. destruct (emits_setup _ _ Es) as [Hw (evs & Hc & Hp)].
    cbn [win vars calls app] in *.
    apply setup_call_other in Hp. destruct Hp as (Hnr & _).
    assert (Hsame : forall sb rb, first_level_run W wf0 sa = (sb, rb) ->
              In (EvRun wf) (calls sb) ->
              wf = wf0 /\ exists rest, calls sb = calls sa ++ EvRun wf :: rest).
    { intros sb rb Er Hb. apply run_calls in Er.
      destruct Er as (rest & Hcb & Hsh).
      apply run_shape_calls in Hsh. destruct Hsh as (_ & Hnr').
      rewrite Hcb, Hc in Hb.
      apply in_app_or in Hb. destruct Hb as [Hb | [Hb | Hb]];
        [now apply no_run_in in Hb | | now apply no_run_in in Hb].
      injection Hb as ->. split; [reflexivity |]. now exists rest. }
    destruct (first_level_run W wf0 sa) as [sb [u | e]] eqn:Er.
    + injection H as <- <- <-.
      destruct (Hsame _ _ eq_refl Hin) as (-> & rest & Hr).
      exists rest. now split.
    + destruct (first_level_except e sb) as [sc rc] eqn:Eh.
      apply except_calls in Eh. injection H as <- <- <-.
      rewrite Eh in Hin |- *.
      destruct (Hsame _ _ eq_refl Hin) as (-> & rest & Hr).
      exists rest. now split.
  - destruct (emits_setup _ _ Es) as [Hw (evs & Hc & Hp)].
    cbn [win vars calls app] in *.
    destruct (first_level_except e sa) as [sc rc] eqn:Eh.
    apply except_calls in Eh. injection H as <- <- <-.
    rewrite Eh, Hc in Hin.
    apply setup_call_other in Hp. destruct Hp as (Hnr & _).
    now apply no_run_in in Hin.
Qed.

(** X14: the workflow that is run has, as its functional image, the
    first file the layout finds for the suffix "bold", the first task,
    the session and the extension "nii.gz", and as its brain mask the
    first file found for the suffix "brainmask" in the same way; of the
    tasks only the first is used to find files. *)
Theorem workflow_inputs (g g' : gui Layout) (tr : list (event Image))
  (r : result unit) (wf : workflow) :
  click (run_first_level W) g = (g', tr, r) ->
  In (EvRun wf) tr ->
  exists l bold mask,
    layout g = Some l
    /\ index0 (files_of W [] l (task_query g "bold" "nii.gz")) = Ok bold
    /\ index0 (files_of W [EvGet (task_query g "bold" "nii.gz")] l
                        (task_query g "brainmask" "nii.gz")) = Ok mask
    /\ wf_in_func wf = Some bold
    /\ wf_brain_mask wf = Some mask.
Proof.
  intros Hclick Hin.
  destruct (run_follows_setup _ _ Hclick Hin) as (s1 & rest & Hs & _).
  destruct (setup_inputs _ Hs)
    as (l & bold & mask & ef & cf & b & Hl & Hb & Hm & _ & _ & _ & Hf & Hk & _).
  exists l, bold, mask. auto.
Qed.

(** X16: a click that gets as far as running the workflow has made
    these calls before, in this order and no others: the four file
    lookups, the reading of the events file, which is the first file
    found for the events of the first task, the reading of the
    confounds file, which is the first file found for the confounds,
    the making of the workflow and the setting of its four inputs. *)
Theorem setup_calls_in_order (g g' : gui Layout) (tr : list (event Image))
  (r : result unit) (wf : workflow) :
  click (run_first_level W) g = (g', tr, r) ->
  In (EvRun wf) tr ->
  exists l events_file confounds_file rest,
    layout g = Some l
    /\ events_file_of W g l = Ok events_file
    /\ confounds_file_of W g l = Ok confounds_file
    /\ tr = setup_calls g events_file confounds_file ++ EvRun wf :: rest.
Proof.
  intros Hclick Hin.
  destruct (run_follows_setup _ _ Hclick Hin) as (s1 & rest & Hs & ->).
  destruct (setup_inputs _ Hs)
    as (l & bold & mask & ef & cf & b
        & Hl & _ & _ & He & Hc & _ & _ & _ & _ & Hcalls).
  exists l, ef, cf, rest. rewrite Hcalls. auto.
Qed.

(** C8: the subject info of the workflow that is run is built from the
    table read from the events file and the table read from the
    confounds file, these being the first files the layout gives for
    the events of the first task and for the confounds.  For every
    task it holds the onsets of the rows of the events table whose
    trial type is the task, each less ten, and the durations of those
    rows as they are; every regressor is a column of the confounds
    table with NaN turned to nought and its first four rows dropped. *)
Theorem subject_info_passed (g g' : gui Layout) (tr : list (event Image))
  (r : result unit) (wf : workflow) :
  click (run_first_level W) g = (g', tr, r) ->
  In (EvRun wf) tr ->
  exists l events_file confounds_file b rest,
    layout g = Some l
    /\ events_file_of W g l = Ok events_file
    /\ confounds_file_of W g l = Ok confounds_file
    /\ tr = lookups g ++ EvReadCsv events_file
                      :: EvReadCsv confounds_file :: rest
    /\ wf_subject_info wf = Some [b]
    /\ info_described (tasks_of g) (confound_cols g)
         (events_table W g events_file)
         (confounds_table W g events_file confounds_file) b.
Proof.
  intros Hclick Hin.
  destruct (run_follows_setup _ _ Hclick Hin) as (s1 & rest & Hs & ->).
  destruct (setup_inputs _ Hs)
    as (l & bold & mask & ef & cf & b
        & Hl & _ & _ & He & Hc & Hmake & _ & _ & Hinfo & Hcalls).
  exists l, ef, cf, b.
  exists ([EvWorkflow "Feat1stLevel"; EvSetInput "in_func";
           EvSetInput "brain_mask"; EvSetInput "subject_info";
           EvSetInput "contrasts"] ++ EvRun wf :: rest).
  split; [exact Hl |]. split; [exact He |]. split; [exact Hc |].
  split; [rewrite Hcalls; reflexivity |].
  split; [exact Hinfo |].
  apply make_info_described; [apply tasks_of_nonempty | exact Hmake].
Qed.

End InputFacts.

(** ** A run in which nothing fails *)

Section QuietFacts.
Context {N : Numbers} {Layout Image : Type}.
Variable W : World Layout Image.
Import Py PyFacts.

Lemma save_zstats_quiet (out : string) (imgs : list Image) :
  (forall h ev, raises W h ev = None) ->
  forall i (s : state Layout Image),
    exists s', save_zstats W out imgs i s = (s', Ok tt) /\ win s' = win s.
Proof.
  intros quiet_world.
  induction imgs as [|t_map imgs IH]; intros i s.
  - exists s. split; reflexivity.
  - cbn [save_zstats]. unfold bind, call.
    rewrite quiet_world. cbn [win vars calls].
    rewrite quiet_world. cbn [win vars calls].
    rewrite quiet_world. cbn [win vars calls].
    rewrite quiet_world. cbn [win vars calls].
    match goal with
    | |- context [save_zstats W out imgs (S i) ?s0] =>
        destruct (IH (S i) s0) as (s' & -> & Hw)
    end.
    exists s'. split; [reflexivity | exact Hw].
Qed.

Lemma run_quiet (wf : workflow) (s : state Layout Image) :
  (forall h ev, raises W h ev = None) ->
  (forall h, zstats_of W h (result_path (output_dir (win s))) <> []) ->
  exists s',
    first_level_run W wf s = (s', Ok tt)
    /\ status (win s')
       = qappend
           (qappend
              (qappend (status (win s))
                       "Step 3: Running first-level analysis...")
              "Step 4: Saving results...")
           "First-level analysis completed!".
Proof.
  intros quiet_world Hz.
  unfold first_level_run, bind, log, set_win, call, get_win, lift.
  cbn [win vars calls output_dir with_status].
  rewrite quiet_world. cbn [win vars calls output_dir with_status].
  rewrite quiet_world. cbn [win vars calls output_dir with_status].
  rewrite quiet_world. cbn [win vars calls output_dir with_status].
  match goal with
  | |- context [index0 (zstats_of W ?h ?p)] =>
      specialize (Hz h); destruct (zstats_of W h p) as [|imgs more];
      [contradiction |]
  end.
  cbn [index0].
  match goal with
  | |- context [save_zstats W ?out imgs 0 ?s0] =>
      destruct (save_zstats_quiet out imgs quiet_world 0 s0) as (s1 & -> & Hw)
  end.
  eexists. split; [reflexivity |].
  cbn [win status with_status]. rewrite Hw. reflexivity.
Qed.

(** X15: once the workflow is run, if no library call raises and the
    results hold a list of images, the click returns and the log has
    gained the lines of the steps 2, 3 and 4 and the closing line, in
    this order and nothing else. *)
Theorem run_completes (g g' : gui Layout) (tr : list (event Image))
  (r : result unit) (wf : workflow) :
  click (run_first_level W) g = (g', tr, r) ->
  In (EvRun wf) tr ->
  (forall h ev, raises W h ev = None) ->
  (forall h, zstats_of W h (result_path (output_dir g)) <> []) ->
  r = Ok tt
  /\ status g'
     = qappend
         (qappend
            (qappend
               (qappend (status g)
                        "Step 2: Setting up first-level analysis...")
               "Step 3: Running first-level analysis...")
            "Step 4: Saving results...")
         "First-level analysis completed!".
Proof.
  intros Hclick Hin Hq Hz.
  destruct (@run_follows_setup _ _ _ W _ _ _ _ _ Hclick Hin)
    as (s1 & rest & Hs & _).
  destruct (emits_setup _ _ Hs) as [Hw _].
  unfold step2, enter in Hs, Hw. cbn [win] in Hw.
  revert Hclick. unfold click, run_first_level, bind, get_win, enter.
  cbn [win vars calls].
  destruct (String.eqb (bids_dir g) "" || String.eqb (output_dir g) "").
  { intros [= <- <- <-]. destruct Hin as [Hin | []]. discriminate. }
  unfold log, set_win, try_except, first_level_try, bind.
  cbn [win vars calls]. rewrite Hs.
  destruct (@run_quiet wf s1 Hq) as (s2 & Hr & Hst).
  { rewrite Hw. exact Hz. }
  rewrite Hr. intros [= <- <- <-]. split; [reflexivity |].
  rewrite Hst, Hw. reflexivity.
Qed.

End QuietFacts.

(** ** What loading leaves alone *)

Section LoadingFacts.
Context {N : Numbers} {Layout Image : Type}.
Variable W : World Layout Image.
Import Py PyFacts.

Lemma same_entries_refl (g : gui Layout) : same_entries g g.
Proof. repeat split. Qed.

Lemma same_entries_trans (g1 g2 g3 : gui Layout) :
  same_entries g1 g2 -> same_entries g2 g3 -> same_entries g1 g3.
Proof.
  unfold same_entries.
  intros (A1 & A2 & A3 & A4 & A5 & A6 & A7) (B1 & B2 & B3 & B4 & B5 & B6 & B7).
  repeat split; congruence.
Qed.

Lemma keeps_of_emits {A} (P : event Image -> Prop) (m : M Layout Image A) :
  emits P m -> keeps_entries m.
Proof.
  intros Hm s s' r H. destruct (Hm _ _ _ H) as [-> _].
  apply same_entries_refl.
Qed.

Lemma keeps_set_win (f : gui Layout -> gui Layout) :
  (forall g, same_entries g (f g)) ->
  keeps_entries (set_win f : M Layout Image unit).
Proof. intros Hf s s' r H. injection H as <- <-. apply Hf. Qed.

Lemma keeps_bind {A B} (m : M Layout Image A) (k : A -> M Layout Image B) :
  keeps_entries m -> (forall a, keeps_entries (k a)) ->
  keeps_entries (bind m k).
Proof.
  intros Hm Hk s s' r H. unfold bind in H.
  destruct (m s) as [s1 [a | e]] eqn:Hms.
  - eapply same_entries_trans; [exact (Hm _ _ _ Hms) | exact (Hk a _ _ _ H)].
  - injection H as <- <-. exact (Hm _ _ _ Hms).
Qed.

Lemma keeps_try {A} (body : M Layout Image A)
  (handler : exn -> M Layout Image A) :
  keeps_entries body -> (forall e, keeps_entries (handler e)) ->
  keeps_entries (try_except body handler).
Proof.
  intros Hb Hh s s' r H. unfold try_except in H.
  destruct (body s) as [s1 [a | e]] eqn:Hbs.
  - injection H as <- <-. exact (Hb _ _ _ Hbs).
  - eapply same_entries_trans; [exact (Hb _ _ _ Hbs) | exact (Hh e _ _ _ H)].
Qed.

Ltac kept_steps :=
  repeat match goal with
    | |- keeps_entries (bind _ _) => apply keeps_bind; [| intros ?]
    | |- keeps_entries (try_except _ _) => apply keeps_try; [| intros ?]
    | |- keeps_entries (log _) => unfold log
    | |- keeps_entries (set_win _) =>
        apply keeps_set_win; intros ?; repeat split
    | |- keeps_entries get_win =>
        apply keeps_of_emits with (P := fun _ => True); apply emits_get_win
    | |- keeps_entries (lift _) =>
        apply keeps_of_emits with (P := fun _ => True); apply emits_lift
    | |- keeps_entries (local _) =>
        apply keeps_of_emits with (P := fun _ => True); apply emits_local
    | |- keeps_entries (assign _ _) =>
        apply keeps_of_emits with (P := fun _ => True); apply emits_assign
    | |- keeps_entries (call _ _ _) =>
        apply keeps_of_emits with (P := fun _ => True);
        apply emits_call; exact I
    | |- keeps_entries (layout_get _ _) =>
        apply keeps_of_emits with (P := fun _ => True);
        apply emits_layout_get; exact I
    end.

(** X17: once a folder is picked, [choose_bids] has put it and its
    last component into the window before it tries to load anything:
    whether the loading succeeds, logs an error or raises, the window
    afterwards has this folder and label, and the output folder, its
    label and the three text fields are as they were. *)
Theorem choose_bids_keeps_folder (g g' : gui Layout)
  (tr : list (event Image)) (r : result unit) (folder : string) :
  click (choose_bids W) g = (g', tr, r) ->
  picked W [] "Choose BIDS Folder" = folder ->
  folder <> "" ->
  same_entries (with_bids g folder (basename folder)) g'.
Proof.
  unfold click. destruct (choose_bids W (enter g)) as [s' r'] eqn:H.
  intros Heq Hp Hf. injection Heq as <- <- <-.
  unfold choose_bids in H. unfold bind at 1 in H. unfold show at 1 in H.
  cbn [calls enter] in H. rewrite Hp in H.
  destruct (String.eqb_spec folder "") as [He | _]; [contradiction |].
  unfold bind at 1 in H. unfold set_win at 1 in H.
  cbn [win vars calls enter] in H.
  revert H.
  match goal with
  | |- ?m ?s0 = _ -> _ =>
      assert (Hk : keeps_entries m) by kept_steps;
      intros H; exact (Hk _ _ _ H)
  end.
Qed.

End LoadingFacts.

(** ** The claims on concrete inputs *)

Section Examples.
Import Py PyFacts.

Local Ltac absent := cbn; intuition discriminate.

Lemma parse_contrasts_line_witness :
  parse_contrasts (N := Demo.IntNumbers) "A: X=1, Y=-1"
  = Ok [Contrast (N := Demo.IntNumbers) "A" "T" ["X"; "Y"]
                 [Some 1%Z; Some (-1)%Z]].
Proof.
  destruct (@parse_contrasts_line Demo.IntNumbers "A"
              [(" X", "1"); (" Y", "-1")] [Some 1%Z; Some (-1)%Z])
    as [Hline _].
  - absent.
  - absent.
  - discriminate.
  - repeat constructor; absent.
  - repeat (constructor; [reflexivity |]). constructor.
  - apply Hline. cbn. repeat constructor; absent.
Defined.

(** A condition written twice is kept once, with its last weight. *)
Lemma duplicate_condition_collapses :
  parse_contrasts (N := Demo.IntNumbers)
    (contrast_line "A" [(" X", "1"); (" X", "2")])
  = Ok [Contrast (N := Demo.IntNumbers) "A" "T" ["X"] [Some 2%Z]]
  /\ parse_contrasts (N := Demo.IntNumbers)
       (contrast_line "A" [(" X", "1"); (" X", "2")])
     <> Ok [spec_contrast (N := Demo.IntNumbers) "A"
              [(" X", "1"); (" X", "2")] [Some 1%Z; Some 2%Z]].
Proof. split; [reflexivity | discriminate]. Qed.

Lemma malformed_line_raises_witness :
  exists e,
    parse_contrasts (N := Demo.IntNumbers) "Finger=1" = Raise e
    /\ click (run_first_level Demo.quiet) Demo.mistyped
       = (with_status Demo.mistyped
            (qappend (status Demo.mistyped)
                     "Step 2: Setting up first-level analysis..."),
          [], Raise (UnboundLocalError (wanted_file (exn_str e)))).
Proof.
  destruct (@malformed_line_raises Demo.IntNumbers "Finger=1" "Finger=1")
    as [_ [e [He Hrun]]].
  - left. reflexivity.
  - discriminate.
  - apply no_colon. absent.
  - exists e. split; [exact He |].
    apply (Hrun unit string Demo.quiet Demo.mistyped);
      [discriminate | discriminate | reflexivity].
Defined.

(** C2 on the code: when [BIDSLayout] raises, and when a contrast line
    has no colon, the [except] block reads [confounds_file] before any
    assignment to it, so [UnboundLocalError] leaves the handler and no
    error line is logged. *)
Theorem handlers_leak_unbound_local :
  click (choose_bids Demo.broken) (init_window unit)
  = (with_status (with_bids (init_window unit) "/data/bids" "bids")
       (qappend "Ready" "Step 1: Loading BIDS layout..."),
     [EvDirDialog "Choose BIDS Folder"; EvBIDSLayout "/data/bids"],
     Raise (UnboundLocalError "confounds_file"))
  /\ click (run_first_level Demo.quiet) Demo.mistyped
     = (with_status Demo.mistyped
          (qappend "Ready" "Step 2: Setting up first-level analysis..."),
        [], Raise (UnboundLocalError "confounds_file")).
Proof. split; reflexivity. Qed.


(** The click in the quiet world runs to the end. *)
Lemma quiet_run_computes :
  click (run_first_level Demo.quiet) Demo.ready
  = (Demo.quiet_done, Demo.quiet_trace, Ok tt).
Proof. reflexivity. Qed.

Lemma results_loaded_from_witness :
  In (EvPickleLoad (result_path (output_dir Demo.ready))) Demo.quiet_trace
  /\ forall q,
      In (EvGzipOpen q) Demo.quiet_trace
      \/ In (EvPickleLoad q) Demo.quiet_trace ->
      q = result_path (output_dir Demo.ready).
Proof.
  split.
  - do 13 right. left. reflexivity.
  - apply (@results_loaded_from Demo.IntNumbers unit string Demo.quiet
             Demo.ready Demo.quiet_done Demo.quiet_trace (Ok tt)).
    reflexivity.
Defined.

Lemma zstat_pictures_witness :
  exists k,
    saved Demo.quiet_trace
    = map (zstat_path (output_dir Demo.ready)) (seq 0 k).
Proof.
  destruct (@zstat_pictures Demo.IntNumbers unit string Demo.quiet
              Demo.ready Demo.quiet_done Demo.quiet_trace (Ok tt))
    as [k [Hk _]].
  - reflexivity.
  - exists k. exact Hk.
Defined.

Lemma subject_info_passed_witness :
  exists l events_file confounds_file b rest,
    layout Demo.ready = Some l
    /\ events_file_of Demo.quiet Demo.ready l = Ok events_file
    /\ confounds_file_of Demo.quiet Demo.ready l = Ok confounds_file
    /\ Demo.quiet_trace
       = lookups Demo.ready ++ EvReadCsv events_file
                            :: EvReadCsv confounds_file :: rest
    /\ wf_subject_info Demo.quiet_workflow = Some [b]
    /\ info_described (tasks_of Demo.ready) (confound_cols Demo.ready)
         (events_table Demo.quiet Demo.ready events_file)
         (confounds_table Demo.quiet Demo.ready events_file confounds_file)
         b.
Proof.
  apply (@subject_info_passed Demo.IntNumbers unit string Demo.quiet
           Demo.ready Demo.quiet_done Demo.quiet_trace (Ok tt)
           Demo.quiet_workflow).
  - reflexivity.
  - do 11 right. left. reflexivity.
Defined.

(** With [x] selected, the column [xy] contains [x] and is left out. *)
Lemma selecting_x_leaves_xy_out :
  currentText Demo.two_columns = "x"
  /\ ~ (forall item,
          In item (combo_items Demo.two_columns) ->
          contains "x" item = true ->
          In item (confound_cols Demo.two_columns)).
Proof.
  split; [reflexivity |]. intros H.
  destruct (H "xy") as [H' | []]; [right; now left | reflexivity | discriminate].
Qed.

Lemma run_first_level_needs_folders_witness :
  click (run_first_level Demo.quiet) (init_window unit)
  = (init_window unit,
     [EvWarning "Error" "Select BIDS and output folders!"], Ok tt).
Proof.
  apply (@run_first_level_needs_folders Demo.IntNumbers unit string
           Demo.quiet (init_window unit)).
  left. reflexivity.
Defined.

(** The second-level button calls no library at all. *)
Lemma second_level_launches_nothing :
  ~ exists ev : event (N := Demo.IntNumbers) string,
      In ev (snd (fst (click run_second_level (init_window unit)))).
Proof. intros [ev []]. Qed.

End Examples.

(** ** Further properties on concrete inputs *)

Section MoreExamples.
Import Py PyFacts.

Local Ltac no_char := cbn; intuition discriminate.

Lemma parse_contrasts_blank_witness :
  parse_contrasts (N := Demo.IntNumbers) (" " ++ NL ++ "") = Ok [].
Proof.
  apply (@parse_contrasts_blank Demo.IntNumbers).
  intros line [<- | [<- | []]]; reflexivity.
Defined.

Lemma parse_contrasts_sound_witness :
  Forall (sound_contrast (N := Demo.IntNumbers))
         [Contrast (N := Demo.IntNumbers) "A" "T" ["X"; "Y"]
                   [Some 1%Z; Some (-1)%Z]].
Proof.
  apply (@parse_contrasts_sound Demo.IntNumbers "A: X=1, Y=-1").
  reflexivity.
Defined.

Lemma parse_contrasts_repeated_witness :
  exists kept,
    parse_contrasts (N := Demo.IntNumbers)
      (contrast_line "A" [(" X", "1"); (" Y", "3"); (" X", "2")])
    = Ok [Contrast "A" "T" ["X"; "Y"] kept]
    /\ Forall2
         (fun k w =>
            last_of k [("X", Some 1%Z); ("Y", Some 3%Z); ("X", Some 2%Z)]
            = Some w)
         ["X"; "Y"] kept.
Proof.
  apply (@parse_contrasts_repeated Demo.IntNumbers "A"
           [(" X", "1"); (" Y", "3"); (" X", "2")]
           [Some 1%Z; Some 3%Z; Some 2%Z]).
  - no_char.
  - no_char.
  - discriminate.
  - repeat constructor; no_char.
  - repeat (constructor; [reflexivity |]). constructor.
Defined.

Lemma choose_bids_loads_witness :
  click (choose_bids Demo.quiet) (init_window unit)
  = (loaded (init_window unit) "/data/bids" tt ["trans_x"; "trans_y"],
     [EvDirDialog "Choose BIDS Folder"; EvBIDSLayout "/data/bids";
      EvGet (confounds_query [".tsv"; ".csv"]);
      EvReadCsv "/data/bids/sub-01_confounds"],
     Ok tt).
Proof.
  apply (@choose_bids_loads Demo.IntNumbers unit string Demo.quiet
           (init_window unit) "/data/bids" "/data/bids/sub-01_confounds" []);
    first [reflexivity | discriminate].
Defined.

Lemma choose_output_sets_witness :
  click (choose_output Demo.quiet) (init_window unit)
  = (with_output (init_window unit) "/data/bids" "bids",
     [EvDirDialog "Choose Output Folder"], Ok tt).
Proof.
  apply (@choose_output_sets Demo.IntNumbers unit string Demo.quiet
           (init_window unit) "/data" "bids").
  - reflexivity.
  - cbn. intuition discriminate.
Defined.

Lemma run_without_layout_witness :
  click (run_first_level Demo.quiet) Cases.unloaded
  = (with_status Cases.unloaded
       (qappend (status Cases.unloaded)
                "Step 2: Setting up first-level analysis..."),
     [], Raise (UnboundLocalError "confounds_file")).
Proof.
  apply (@run_without_layout Demo.IntNumbers unit string Demo.quiet
           Cases.unloaded
           [Contrast (N := Demo.IntNumbers) "A" "T" ["Finger"; "Foot"]
                     [Some 1%Z; Some (-1)%Z]]).
  - discriminate.
  - discriminate.
  - reflexivity.
  - reflexivity.
Defined.

Lemma run_first_level_only_logs_witness :
  exists more,
    Demo.quiet_done
    = with_status Demo.ready (status Demo.ready ++ more).
Proof.
  apply (@run_first_level_only_logs Demo.IntNumbers unit string Demo.quiet
           Demo.ready Demo.quiet_done Demo.quiet_trace (Ok tt)).
  reflexivity.
Defined.

Lemma error_step_is_setup_witness :
  exists file,
    status (win (fst (first_level_except (N := Demo.IntNumbers)
                        Cases.run_error Cases.failed_run)))
    = qappend (status (win Cases.failed_run))
        ("Error in Setup Workflow: " ++ exn_str Cases.run_error
         ++ " - File: " ++ file).
Proof.
  apply (@error_step_is_setup Demo.IntNumbers unit string Cases.run_fails
           Demo.ready Cases.failed_run
           (fst (first_level_except Cases.run_error Cases.failed_run))
           Cases.run_error).
  - reflexivity.
  - reflexivity.
Defined.

Lemma workflow_inputs_witness :
  exists l bold mask,
    layout Demo.ready = Some l
    /\ index0 (files_of Demo.quiet [] l
                 (task_query Demo.ready "bold" "nii.gz")) = Ok bold
    /\ index0 (files_of Demo.quiet
                 [EvGet (task_query Demo.ready "bold" "nii.gz")] l
                 (task_query Demo.ready "brainmask" "nii.gz")) = Ok mask
    /\ wf_in_func Demo.quiet_workflow = Some bold
    /\ wf_brain_mask Demo.quiet_workflow = Some mask.
Proof.
  apply (@workflow_inputs Demo.IntNumbers unit string Demo.quiet
           Demo.ready Demo.quiet_done Demo.quiet_trace (Ok tt)
           Demo.quiet_workflow).
  - reflexivity.
  - do 11 right. left. reflexivity.
Defined.

Lemma setup_calls_in_order_witness :
  exists l events_file confounds_file rest,
    layout Demo.ready = Some l
    /\ events_file_of Demo.quiet Demo.ready l = Ok events_file
    /\ confounds_file_of Demo.quiet Demo.ready l = Ok confounds_file
    /\ Demo.quiet_trace
       = setup_calls Demo.ready events_file confounds_file
         ++ EvRun Demo.quiet_workflow :: rest.
Proof.
  apply (@setup_calls_in_order Demo.IntNumbers unit string Demo.quiet
           Demo.ready Demo.quiet_done Demo.quiet_trace (Ok tt)
           Demo.quiet_workflow).
  - reflexivity.
  - do 11 right. left. reflexivity.
Defined.

Lemma run_completes_witness :
  Ok tt = Ok tt
  /\ status Demo.quiet_done
     = qappend
         (qappend
            (qappend
               (qappend (status Demo.ready)
                        "Step 2: Setting up first-level analysis...")
               "Step 3: Running first-level analysis...")
            "Step 4: Saving results...")
         "First-level analysis completed!".
Proof.
  apply (@run_completes Demo.IntNumbers unit string Demo.quiet
           Demo.ready Demo.quiet_done Demo.quiet_trace (Ok tt)
           Demo.quiet_workflow).
  - reflexivity.
  - do 11 right. left. reflexivity.
  - intros h ev. reflexivity.
  - intros h. discriminate.
Defined.

Lemma choose_bids_keeps_folder_witness :
  same_entries
    (with_bids (init_window unit) "/data/bids" (basename "/data/bids"))
    (with_status (with_bids (init_window unit) "/data/bids" "bids")
       (qappend "Ready" "Step 1: Loading BIDS layout...")).
Proof.
  apply (@choose_bids_keeps_folder Demo.IntNumbers unit string Demo.broken
           (init_window unit) _
           [EvDirDialog "Choose BIDS Folder"; EvBIDSLayout "/data/bids"]
           (Raise (UnboundLocalError "confounds_file")) "/data/bids").
  - reflexivity.
  - reflexivity.
  - discriminate.
Defined.

End MoreExamples.
